(** * Market trend analyzer

    A shallow embedding of [MarketTrendAnalyzer]
    (src/etl_factory/ai/market_analyzer.py): the technical-indicator engine
    [calculate_technical_indicators], the rule-based scorer
    [_generate_recommendation] and the portfolio aggregation of
    [analyze_multiple_stocks] / [_get_portfolio_recommendation].

    Two number systems are used, following where the arithmetic is done.

    - The scorer and the aggregator do their float arithmetic in Python
      itself (literals, [+], [-], [/], [min], [round], [np.mean] of a short
      list).  They are modelled in IEEE binary64, bit for bit, with the
      Standard Library's [SpecFloat] (module [B64]).

    - The indicator engine hands every computation to pandas (sorting,
      rolling windows, exponential smoothing).  Its columns are modelled by
      their mathematical definition over the rationals extended with the
      two infinities and NaN (module [Exact]): no rounding, no signed zero.
      pandas rounds every step to binary64, so what is proved of the
      engine is what does not hang on the last digits of a number: which
      rows there are, which window a value is computed over, which values
      are missing, how a value compares with another that it is built
      from.  The square root of the rolling standard deviation is a
      parameter, and so is the sort: pandas passes it to numpy's quicksort,
      which leaves rows of one timestamp in no fixed order. *)

From Stdlib Require Import ZArith QArith List String Ascii Bool Lia Lqa.
From Stdlib Require Import Permutation Sorted SpecFloat DecimalString.
Import ListNotations.

Local Open Scope Z_scope.

(* ================================================================== *)
(** ** Python floats: IEEE binary64 *)

Module B64.

Definition prec : Z := 53.
Definition emax : Z := 1024.

Definition float : Type := spec_float.

Definition zero : float := S754_zero false.
Definition nan : float := S754_nan.

Definition add : float -> float -> float := SFadd prec emax.
Definition sub : float -> float -> float := SFsub prec emax.
Definition mul : float -> float -> float := SFmul prec emax.
Definition div : float -> float -> float := SFdiv prec emax.

(** [x < y], [x > y], [x <= y], [x >= y]: false as soon as one side is NaN. *)
Definition ltb (x y : float) : bool := SFltb x y.
Definition gtb (x y : float) : bool := SFltb y x.
Definition leb (x y : float) : bool := SFleb x y.
Definition geb (x y : float) : bool := SFleb y x.

(** A Python int seen as a float (exact below 2^53). *)
Definition of_Z (z : Z) : float := binary_normalize prec emax z 0 false.

(** The binary64 number nearest to the fraction [n/d] with sign [s]. *)
Definition of_ratio (s : bool) (n d : positive) : float :=
  div (S754_finite s n 0) (S754_finite false d 0).

(** A decimal literal, written as a fraction: [lit 7 10] is [0.7]. *)
Definition lit (n : Z) (d : positive) : float :=
  match n with
  | Z0 => zero
  | Zpos p => of_ratio false p d
  | Zneg p => of_ratio true p d
  end.

(** Python's two-argument [min(a, b)]: [b] only when [b < a]. *)
Definition pymin (a b : float) : float := if ltb b a then b else a.

(** [n/d] rounded to the nearest integer, ties to even ([d > 0]). *)
Definition half_even (n d : Z) : Z :=
  let q := n / d in
  let r := n mod d in
  match 2 * r ?= d with
  | Lt => q
  | Gt => q + 1
  | Eq => if Z.even q then q else q + 1
  end.

(** [m * 2^e * 10^nd] rounded to an integer. *)
Definition scaled (m : positive) (e : Z) (nd : nat) : Z :=
  let p := Zpos m * 10 ^ Z.of_nat nd in
  if 0 <=? e then p * 2 ^ e else half_even p (2 ^ (- e)).

(** [round(x, ndigits)] for [ndigits >= 0]: the exact value of [x] is
    rounded to [ndigits] decimals (ties to even) and the decimal is read
    back as the nearest float; NaN and the infinities are returned as
    they are. *)
Definition round (x : float) (ndigits : nat) : float :=
  match x with
  | S754_finite s m e =>
      match scaled m e ndigits with
      | Zpos n => of_ratio s n (Z.to_pos (10 ^ Z.of_nat ndigits))
      | _ => S754_zero s
      end
  | _ => x
  end.

(** The rational a finite float stands for. *)
Definition to_Q (x : float) : Q :=
  match x with
  | S754_finite s m e =>
      ((if s then - inject_Z (Zpos m) else inject_Z (Zpos m)) * 2 ^ e)%Q
  | _ => 0%Q
  end.

Definition digits (n : Z) : string :=
  NilZero.string_of_uint (N.to_uint (Z.to_N n)).

Definition tail (s : string) : string :=
  match s with
  | EmptyString => EmptyString
  | String _ t => t
  end.

Definition sign_string (s : bool) : string :=
  if s then "-"%string else EmptyString.

(** The decimal digits of the integer [n], read as a count of
    [10^-nd]. *)
Definition fixed_digits (n : Z) (nd : nat) : string :=
  let p := 10 ^ Z.of_nat nd in
  match nd with
  | O => digits n
  | S _ => String.append (digits (n / p))
             (String.append "." (tail (digits (p + n mod p))))
  end.

(** The format specification [.{nd}f]. *)
Definition format_f (x : float) (nd : nat) : string :=
  match x with
  | S754_nan => "nan"%string
  | S754_infinity s => String.append (sign_string s) "inf"
  | S754_zero s => String.append (sign_string s) (fixed_digits 0 nd)
  | S754_finite s m e =>
      String.append (sign_string s) (fixed_digits (scaled m e nd) nd)
  end.

End B64.

(* ================================================================== *)
(** ** The rule-based scorer *)

Module Scorer.
Import B64.
Local Open Scope string_scope.

Record Alternative := {
  strategy : string;
  risk : string;
  expected_return : string;
  rationale : string
}.

Record Recommendation := {
  action : string;
  confidence : float;
  holding_period : string;
  alternatives : list Alternative;
  reasoning : string
}.

(** The accumulator [recommendation_score] after the RSI, trend and
    price-change rules. *)
Definition recommendation_score
    (rsi : float) (trend : string) (price_change : float) : Z :=
  let recommendation_score := 0%Z in
  (* RSI analysis *)
  let recommendation_score :=
    if ltb rsi (of_Z 30) then recommendation_score + 2
    else if gtb rsi (of_Z 70) then recommendation_score - 2
    else if leb (of_Z 30) rsi && leb rsi (of_Z 50)
         then recommendation_score + 1
    else recommendation_score in
  (* Trend analysis *)
  let recommendation_score :=
    if trend =? "bullish" then recommendation_score + 1
    else if trend =? "bearish" then recommendation_score - 1
    else recommendation_score in
  (* Price change analysis *)
  let recommendation_score :=
    if gtb price_change (of_Z 5) then recommendation_score - 1
    else if ltb price_change (of_Z (-5)) then recommendation_score + 1
    else recommendation_score in
  recommendation_score.

(** [confidence] after the volatility consideration. *)
Definition volatility_confidence (volatility : float) : float :=
  let confidence := lit 5 10 in
  if gtb volatility (of_Z 3) then sub confidence (lit 2 10) else confidence.

Definition alternative_strategies : list Alternative :=
  [ {| strategy := "Index Funds (S&P 500, NASDAQ)";
       risk := "Low-Medium";
       expected_return := "7-10% annually";
       rationale := "Diversified exposure with lower volatility" |};
    {| strategy := "Bond ETFs";
       risk := "Low";
       expected_return := "3-5% annually";
       rationale := "Stable income with capital preservation" |};
    {| strategy := "Dividend Stocks";
       risk := "Medium";
       expected_return := "4-7% annually";
       rationale := "Regular income with potential capital appreciation" |} ].

Definition _generate_recommendation
    (rsi : float) (trend : string) (price_change volatility : float)
    (llm_insights : option string) : Recommendation :=
  let recommendation_score := recommendation_score rsi trend price_change in
  let confidence := volatility_confidence volatility in
  (* Determine action *)
  let '(action, confidence, holding_period) :=
    if (recommendation_score >=? 2)%Z then
      ("BUY",
       pymin (lit 9 10) (add confidence (lit 2 10)),
       if ltb volatility (of_Z 2) then "medium-term (1-4 weeks)"
       else "short-term (1-7 days)")
    else if (recommendation_score <=? -2)%Z then
      ("SELL",
       pymin (lit 9 10) (add confidence (lit 2 10)),
       "immediate")
    else
      ("WAIT", lit 6 10, "monitor for 1-2 weeks") in
  {| action := action;
     confidence := round confidence 2;
     holding_period := holding_period;
     alternatives := alternative_strategies;
     reasoning :=
       String.append "RSI: "
         (String.append (format_f rsi 1)
            (String.append ", Trend: "
               (String.append trend
                  (String.append ", Price Change: "
                     (String.append (format_f price_change 2) "%"))))) |}.

End Scorer.

(* ================================================================== *)
(** ** Column values of the indicator engine: exact arithmetic *)

Module Exact.
Local Open Scope Q_scope.

(** A pandas float64 cell without its rounding: a rational, one of the
    infinities, or NaN (also pandas' missing value). *)
Inductive num : Type :=
| Fin (q : Q)
| PInf
| NInf
| NaN.

Definition Qltb (a b : Q) : bool := negb (Qle_bool b a).

Definition zero : num := Fin 0.
Definition of_Z (z : Z) : num := Fin (inject_Z z).
Definition of_nat (n : nat) : num := of_Z (Z.of_nat n).

Definition isnan (x : num) : bool :=
  match x with
  | NaN => true
  | _ => false
  end.

Definition isfinite (x : num) : bool :=
  match x with
  | Fin _ => true
  | _ => false
  end.

(** The infinity of the given sign ([true] is negative). *)
Definition inf (negative : bool) : num := if negative then NInf else PInf.

Definition neg (x : num) : num :=
  match x with
  | Fin q => Fin (- q)
  | PInf => NInf
  | NInf => PInf
  | NaN => NaN
  end.

Definition add (x y : num) : num :=
  match x, y with
  | NaN, _ | _, NaN => NaN
  | Fin a, Fin b => Fin (a + b)
  | PInf, NInf | NInf, PInf => NaN
  | PInf, _ | _, PInf => PInf
  | NInf, _ | _, NInf => NInf
  end.

Definition sub (x y : num) : num := add x (neg y).

Definition mul (x y : num) : num :=
  match x, y with
  | NaN, _ | _, NaN => NaN
  | Fin a, Fin b => Fin (a * b)
  | Fin a, PInf | PInf, Fin a =>
      if Qeq_bool a 0 then NaN else inf (Qltb a 0)
  | Fin a, NInf | NInf, Fin a =>
      if Qeq_bool a 0 then NaN else inf (Qltb 0 a)
  | PInf, PInf | NInf, NInf => PInf
  | PInf, NInf | NInf, PInf => NInf
  end.

(** Float division: a non-zero number over zero is an infinity, zero over
    zero is NaN; nothing is raised. *)
Definition div (x y : num) : num :=
  match x, y with
  | NaN, _ | _, NaN => NaN
  | Fin a, Fin b =>
      if Qeq_bool b 0
      then (if Qeq_bool a 0 then NaN else inf (Qltb a 0))
      else Fin (a / b)
  | Fin _, _ => Fin 0
  | PInf, Fin b => inf (Qltb b 0)
  | NInf, Fin b => inf (negb (Qltb b 0))
  | _, _ => NaN
  end.

(** [x < y], [x > y], [x == y]: false as soon as one side is NaN. *)
Definition ltb (x y : num) : bool :=
  match x, y with
  | NaN, _ | _, NaN => false
  | Fin a, Fin b => Qltb a b
  | NInf, NInf | PInf, _ | _, NInf => false
  | NInf, _ | _, PInf => true
  end.

Definition gtb (x y : num) : bool := ltb y x.

Definition eqb (x y : num) : bool :=
  match x, y with
  | Fin a, Fin b => Qeq_bool a b
  | PInf, PInf | NInf, NInf => true
  | _, _ => false
  end.

(** The square root, over a given square root of the rationals. *)
Definition sqrt (qsqrt : Q -> Q) (x : num) : num :=
  match x with
  | Fin q => if Qltb q 0 then NaN else Fin (qsqrt q)
  | PInf => PInf
  | _ => NaN
  end.

(** A rational square root to work examples with: the integer square
    root of [n * d] over [d] for the fraction [n / d]. *)
Definition floor_sqrt (q : Q) : Q :=
  Z.sqrt (Qnum q * Zpos (Qden q)) # Qden q.

End Exact.

(* ================================================================== *)
(** ** The pandas operations the engine calls *)

Module Pandas.
Import Exact.
Local Open Scope Q_scope.

Definition Series : Type := list num.

(** A cell of an input column: a number, or text that does not parse as
    one. *)
Inductive cell : Type :=
| Num (x : num)
| Text (s : string).

(** [pd.to_numeric(column, errors='coerce')] on one cell. *)
Definition to_numeric (c : cell) : num :=
  match c with
  | Num x => x
  | Text _ => NaN
  end.

Definition map2 {A B C : Type} (f : A -> B -> C)
    (xs : list A) (ys : list B) : list C :=
  map (fun p => f (fst p) (snd p)) (combine xs ys).

(** The rows [i-w+1 .. i] that a rolling window of size [w] covers at
    row [i]; fewer than [w] rows near the start. *)
Definition window {A : Type} (w i : nat) (xs : list A) : list A :=
  skipn (i + 1 - w) (firstn (i + 1) xs).

Definition rolling {A B : Type} (w : nat) (f : list A -> B)
    (xs : list A) : list B :=
  map (fun i => f (window w i xs)) (seq 0 (List.length xs)).

(** What the window aggregations of pandas are handed: the column with
    its infinities replaced by NaN ([_prep_values]). *)
Definition prep_values (s : Series) : Series :=
  map (fun x => if isfinite x then x else NaN) s.

(** The observations of a window: a rolling aggregation sees the
    infinities as NaN and skips NaN, so what it aggregates are the finite
    cells. *)
Definition observations (xs : Series) : Series := filter isfinite xs.

Definition sum (xs : Series) : num := fold_left add xs zero.

(** Window mean with [min_periods=1]: the mean of the observations, NaN
    when there is none. *)
Definition mean (xs : Series) : num :=
  let obs := observations xs in
  match obs with
  | [] => NaN
  | _ :: _ => div (sum obs) (of_nat (List.length obs))
  end.

(** Window sample variance ([ddof=1]) with [min_periods=1]: NaN unless
    there are at least two observations. *)
Definition var (xs : Series) : num :=
  let obs := observations xs in
  if (List.length obs <=? 1)%nat then NaN
  else
    let m := div (sum obs) (of_nat (List.length obs)) in
    div (sum (map (fun x => mul (sub x m) (sub x m)) obs))
        (of_nat (List.length obs - 1)).

Definition std (qsqrt : Q -> Q) (xs : Series) : num := sqrt qsqrt (var xs).

(** [s.rolling(window=w, min_periods=1).mean()] and [.std()]. *)
Definition rolling_mean (w : nat) (s : Series) : Series := rolling w mean s.

Definition rolling_std (qsqrt : Q -> Q) (w : nat) (s : Series) : Series :=
  rolling w (std qsqrt) s.

(** [s - s.shift(1)], the first row having no previous one. *)
Fixpoint diff_from (prev : num) (s : Series) : Series :=
  match s with
  | [] => []
  | x :: t => sub x prev :: diff_from x t
  end.

Definition diff (s : Series) : Series := diff_from NaN s.

(** Forward fill: a missing cell takes the last value seen. *)
Fixpoint ffill_from (last : num) (s : Series) : Series :=
  match s with
  | [] => []
  | x :: t =>
      let x' := if isnan x then last else x in
      x' :: ffill_from x' t
  end.

Fixpoint pct_from (prev : num) (s : Series) : Series :=
  match s with
  | [] => []
  | x :: t => sub (div x prev) (of_Z 1) :: pct_from x t
  end.

(** [s.pct_change()]: the series is forward filled (the default
    [fill_method] up to pandas 2), then [s / s.shift(1) - 1]. *)
Definition pct_change (s : Series) : Series := pct_from NaN (ffill_from NaN s).

(** [s.where(cond, other)]: keep the cells where [cond] holds. *)
Definition series_where (cond : num -> bool) (other : num) (s : Series)
  : Series :=
  map (fun x => if cond x then x else other) s.

(** [s.ewm(span=span, adjust=False).mean()].  The state is the running
    average [weighted] (NaN until the first observation) and the weight
    [old_wt] it carries; a missing cell repeats the average and decays
    its weight.  An infinite cell counts as missing. *)
Fixpoint ewm_from (alpha : Q) (weighted : num) (old_wt : Q) (s : Series)
  : Series :=
  match s with
  | [] => []
  | cur :: t =>
      if isnan weighted then
        let weighted := if isnan cur then weighted else cur in
        weighted :: ewm_from alpha weighted old_wt t
      else
        let old_wt := old_wt * (1 - alpha) in
        if isnan cur then weighted :: ewm_from alpha weighted old_wt t
        else
          let weighted :=
            if negb (eqb weighted cur)
            then div (add (mul (Fin old_wt) weighted) (mul (Fin alpha) cur))
                     (Fin (old_wt + alpha))
            else weighted in
          weighted :: ewm_from alpha weighted 1 t
  end.

Definition ewm_mean (span : Z) (s : Series) : Series :=
  ewm_from (2 / (inject_Z span + 1)) NaN 1 (prep_values s).

End Pandas.

(* ================================================================== *)
(** ** The indicator engine *)

Module Engine.
Import Exact Pandas.
Local Open Scope string_scope.

(** One row of the input frame.  [timestamp] is the sort key. *)
Record Bar := {
  timestamp : Z;
  open : cell;
  high : cell;
  low : cell;
  close : cell;
  volume : cell
}.

(** One row of the frame [calculate_technical_indicators] returns. *)
Record IndicatorRow := {
  row_timestamp : Z;
  row_open : cell;
  row_high : num;
  row_low : num;
  row_close : num;
  row_volume : num;
  sma_20 : num;
  sma_50 : num;
  ema_12 : num;
  ema_26 : num;
  macd : num;
  macd_signal : num;
  macd_histogram : num;
  rsi : num;
  bb_middle : num;
  bb_upper : num;
  bb_lower : num;
  volume_sma : num;
  volume_ratio : num;
  price_change : num;
  volatility : num;
  trend : string
}.

Definition by_timestamp (a b : Bar) : Prop := (timestamp a <= timestamp b)%Z.

(** [df.sort_values('timestamp').reset_index(drop=True)].  The call names
    no [kind], so pandas sorts with numpy's quicksort, which is not
    stable: the result holds the rows of the frame in ascending order of
    timestamp, and the order among rows of one timestamp is whatever the
    algorithm leaves.  A sort is therefore taken as given, with the two
    facts that hold of every sort. *)
Record Sorter : Type := {
  sort_values : list Bar -> list Bar;
  sort_values_perm : forall df, Permutation (sort_values df) df;
  sort_values_sorted : forall df, StronglySorted by_timestamp (sort_values df)
}.

(** One such sort, by insertion: what numpy's quicksort does on a frame
    of at most 17 rows, which it does not partition.  It keeps rows of one
    timestamp in their input order. *)
Fixpoint insert (b : Bar) (l : list Bar) : list Bar :=
  match l with
  | [] => [b]
  | x :: t =>
      if (timestamp b <=? timestamp x)%Z then b :: l else x :: insert b t
  end.

Definition insertion_sort (df : list Bar) : list Bar :=
  fold_right insert [] df.

Lemma insert_perm b l : Permutation (insert b l) (b :: l).
Proof.
  induction l as [| x t IH]; cbn [insert]; [reflexivity |].
  destruct (timestamp b <=? timestamp x)%Z; [reflexivity |].
  rewrite IH. apply perm_swap.
Qed.

Lemma insertion_sort_perm df : Permutation (insertion_sort df) df.
Proof.
  induction df as [| b l IH]; cbn [insertion_sort fold_right];
    [reflexivity |].
  fold (insertion_sort l). rewrite insert_perm. now constructor.
Qed.

Lemma insert_sorted b l :
  StronglySorted by_timestamp l -> StronglySorted by_timestamp (insert b l).
Proof.
  induction 1 as [| x t Ht IH Hx]; cbn [insert].
  - repeat constructor.
  - destruct (Z.leb_spec (timestamp b) (timestamp x)) as [Hle | Hgt].
    + constructor; [now constructor |].
      constructor; [exact Hle |].
      eapply Forall_impl; [| exact Hx].
      unfold by_timestamp. intros; lia.
    + constructor; [exact IH |].
      apply (Permutation_Forall (Permutation_sym (insert_perm b t))).
      constructor; [unfold by_timestamp; lia | exact Hx].
Qed.

Lemma insertion_sort_sorted df :
  StronglySorted by_timestamp (insertion_sort df).
Proof.
  induction df as [| b l IH]; cbn [insertion_sort fold_right].
  - constructor.
  - apply insert_sorted. exact IH.
Qed.

Definition stable_sorter : Sorter :=
  {| sort_values := insertion_sort;
     sort_values_perm := insertion_sort_perm;
     sort_values_sorted := insertion_sort_sorted |}.

Definition trend_label (close sma_20 : num) : string :=
  let trend := "neutral" in
  let trend := if gtb close sma_20 then "bullish" else trend in
  let trend := if ltb close sma_20 then "bearish" else trend in
  trend.

Definition rsi_of_rs (rs : num) : num :=
  sub (of_Z 100) (div (of_Z 100) (add (of_Z 1) rs)).

(** The columns the engine works on and adds. *)
Definition close_column (df : list Bar) : Series :=
  map (fun b => to_numeric (close b)) df.

Definition volume_column (df : list Bar) : Series :=
  map (fun b => to_numeric (volume b)) df.

Definition gain_column (close : Series) : Series :=
  let delta := diff close in
  rolling_mean 14 (series_where (fun d => gtb d zero) zero delta).

Definition loss_column (close : Series) : Series :=
  let delta := diff close in
  rolling_mean 14 (map neg (series_where (fun d => ltb d zero) zero delta)).

Definition rsi_column (close : Series) : Series :=
  let rs := map2 div (gain_column close) (loss_column close) in
  map rsi_of_rs rs.

Definition bb_upper_column (qsqrt : Q -> Q) (close : Series) : Series :=
  map2 add (rolling_mean 20 close)
       (map (fun s => mul s (of_Z 2)) (rolling_std qsqrt 20 close)).

Definition bb_lower_column (qsqrt : Q -> Q) (close : Series) : Series :=
  map2 sub (rolling_mean 20 close)
       (map (fun s => mul s (of_Z 2)) (rolling_std qsqrt 20 close)).

Definition trend_column (close : Series) : list string :=
  map2 trend_label close (rolling_mean 20 close).

Section Indicators.
Variable sorter : Sorter.
Variable qsqrt : Q -> Q.

(** The columns added to the sorted frame, row by row. *)
Definition add_indicators (df : list Bar) : list IndicatorRow :=
  (* Ensure proper data types *)
  let close := close_column df in
  let volume := volume_column df in
  let high := map (fun b => to_numeric (high b)) df in
  let low := map (fun b => to_numeric (low b)) df in
  (* Moving Averages *)
  let sma_20 := rolling_mean 20 close in
  let sma_50 := rolling_mean 50 close in
  let ema_12 := ewm_mean 12 close in
  let ema_26 := ewm_mean 26 close in
  (* MACD *)
  let macd := map2 sub ema_12 ema_26 in
  let macd_signal := ewm_mean 9 macd in
  let macd_histogram := map2 sub macd macd_signal in
  (* RSI (Relative Strength Index) *)
  let rsi := rsi_column close in
  (* Bollinger Bands *)
  let bb_middle := rolling_mean 20 close in
  let bb_upper := bb_upper_column qsqrt close in
  let bb_lower := bb_lower_column qsqrt close in
  (* Volume indicators *)
  let volume_sma := rolling_mean 20 volume in
  let volume_ratio := map2 div volume volume_sma in
  (* Price change indicators *)
  let price_change := pct_change close in
  let volatility := rolling_std qsqrt 20 price_change in
  (* Trend indicators *)
  let trend := trend_column close in
  map (fun i =>
         {| row_timestamp := nth i (map timestamp df) 0%Z;
            row_open := nth i (map open df) (Num NaN);
            row_high := nth i high NaN;
            row_low := nth i low NaN;
            row_close := nth i close NaN;
            row_volume := nth i volume NaN;
            sma_20 := nth i sma_20 NaN;
            sma_50 := nth i sma_50 NaN;
            ema_12 := nth i ema_12 NaN;
            ema_26 := nth i ema_26 NaN;
            macd := nth i macd NaN;
            macd_signal := nth i macd_signal NaN;
            macd_histogram := nth i macd_histogram NaN;
            rsi := nth i rsi NaN;
            bb_middle := nth i bb_middle NaN;
            bb_upper := nth i bb_upper NaN;
            bb_lower := nth i bb_lower NaN;
            volume_sma := nth i volume_sma NaN;
            volume_ratio := nth i volume_ratio NaN;
            price_change := nth i price_change NaN;
            volatility := nth i volatility NaN;
            trend := nth i trend "neutral" |})
      (seq 0 (List.length df)).

(** An empty frame is returned as it is; otherwise the rows are sorted
    by timestamp and the indicator columns are added. *)
Definition calculate_technical_indicators (df : list Bar)
  : list IndicatorRow :=
  match df with
  | [] => []
  | _ :: _ =>
      (* Sort by timestamp *)
      let df := sort_values sorter df in
      add_indicators df
  end.

End Indicators.

End Engine.

(* ================================================================== *)
(** ** Portfolio aggregation *)

Module Portfolio.
Import B64.
Local Open Scope string_scope.

(** A per-ticker analysis, as far as the aggregation reads it: the keys
    ['recommendation'] and ['confidence'], either of which [dict.get]
    may find absent. *)
Record Analysis := {
  recommendation : option string;
  confidence : option float
}.

Record PortfolioSummary := {
  total_stocks : Z;
  buy_recommendations : Z;
  sell_recommendations : Z;
  wait_recommendations : Z;
  overall_sentiment : string
}.

Record PortfolioRecommendation := {
  action : string;
  rationale : string;
  suggested_allocation : string
}.

Record PortfolioAnalysis := {
  individual_analyses : list (string * Analysis);
  portfolio_summary : PortfolioSummary;
  portfolio_recommendation : PortfolioRecommendation
}.

(** [a.get('recommendation') == label]. *)
Definition recommends (label : string) (a : Analysis) : bool :=
  match recommendation a with
  | Some r => r =? label
  | None => false
  end.

(** [sum(1 for a in analyses.values() if a.get('recommendation') == label)]. *)
Definition count (label : string) (analyses : list (string * Analysis)) : Z :=
  Z.of_nat (List.length (filter (recommends label) (map snd analyses))).

(** numpy's pairwise summation of a contiguous float64 array: a plain
    left-to-right loop below 8 items, eight running sums up to 128 items,
    and a split in two halves above. *)
Fixpoint unrolled (fuel : nat) (r rest : list float)
  : list float * list float :=
  match fuel with
  | O => (r, rest)
  | S fuel =>
      if (8 <=? List.length rest)%nat
      then unrolled fuel (Pandas.map2 add r (firstn 8 rest)) (skipn 8 rest)
      else (r, rest)
  end.

Definition block_sum (a : list float) : float :=
  let '(r, rest) := unrolled (List.length a) (firstn 8 a) (skipn 8 a) in
  match r with
  | [r0; r1; r2; r3; r4; r5; r6; r7] =>
      fold_left add rest
        (add (add (add r0 r1) (add r2 r3)) (add (add r4 r5) (add r6 r7)))
  | _ => nan
  end.

Fixpoint pairwise_sum (fuel : nat) (a : list float) : float :=
  let n := List.length a in
  if (n <? 8)%nat then fold_left add a (S754_zero true)
  else if (n <=? 128)%nat then block_sum a
  else
    match fuel with
    | O => nan
    | S fuel =>
        let n2 := (n / 2)%nat in
        let n2 := (n2 - n2 mod 8)%nat in
        add (pairwise_sum fuel (firstn n2 a)) (pairwise_sum fuel (skipn n2 a))
    end.

(** [np.mean] of a list: the sum, started from 0, over the item count.
    The mean of no item is 0/0, NaN (numpy warns and does not raise). *)
Definition np_mean (a : list float) : float :=
  div (add zero (pairwise_sum (List.length a) a))
      (of_Z (Z.of_nat (List.length a))).

(** [[a.get('confidence', 0.5) for a in analyses.values()]]. *)
Definition confidence_list (analyses : list (string * Analysis))
  : list float :=
  map (fun a => match confidence a with
                | Some c => c
                | None => lit 5 10
                end)
      (map snd analyses).

(** [avg_confidence] and [buy_ratio] of [_get_portfolio_recommendation];
    the ratio is the int 0 for an empty dict. *)
Definition avg_confidence (analyses : list (string * Analysis)) : float :=
  np_mean (confidence_list analyses).

Definition buy_ratio (analyses : list (string * Analysis)) : float :=
  match analyses with
  | [] => of_Z 0
  | _ :: _ =>
      div (of_Z (count "BUY" analyses))
          (of_Z (Z.of_nat (List.length analyses)))
  end.

Definition _get_portfolio_recommendation
    (analyses : list (string * Analysis)) : PortfolioRecommendation :=
  let avg_confidence := avg_confidence analyses in
  let buy_ratio := buy_ratio analyses in
  if gtb buy_ratio (lit 6 10) && gtb avg_confidence (lit 7 10) then
    {| action := "AGGRESSIVE_BUY";
       rationale := "Strong buy signals across portfolio with high confidence";
       suggested_allocation := "70% stocks, 30% bonds" |}
  else if gtb buy_ratio (lit 4 10) then
    {| action := "MODERATE_BUY";
       rationale := "Moderate buy signals, consider gradual entry";
       suggested_allocation := "50% stocks, 50% bonds" |}
  else if ltb buy_ratio (lit 3 10) then
    {| action := "DEFENSIVE";
       rationale := "Weak signals, consider defensive positioning";
       suggested_allocation := "30% stocks, 70% bonds/cash" |}
  else
    {| action := "WAIT";
       rationale := "Mixed signals, wait for clearer direction";
       suggested_allocation := "40% stocks, 60% bonds/cash" |}.

(** [analyses[ticker] = analysis] on an insertion-ordered dict. *)
Fixpoint dict_set (ticker : string) (analysis : Analysis)
    (analyses : list (string * Analysis)) : list (string * Analysis) :=
  match analyses with
  | [] => [(ticker, analysis)]
  | (k, v) :: t =>
      if k =? ticker then (ticker, analysis) :: t
      else (k, v) :: dict_set ticker analysis t
  end.

Section Analyze.
(** The sort and the square root the engine uses, and
    [generate_market_insights], which queries the language model and
    reads the clock: all three are taken as given. *)
Variable sorter : Engine.Sorter.
Variable qsqrt : Q -> Q.
Variable generate_market_insights :
  string -> list Engine.Bar -> list Engine.IndicatorRow -> Analysis.

Definition analyze_multiple_stocks
    (stock_data_dict : list (string * list Engine.Bar)) : PortfolioAnalysis :=
  let analyses :=
    fold_left
      (fun analyses item =>
         let '(ticker, data) := item in
         match data with
         | [] => analyses
         | _ :: _ =>
             let df :=
               Engine.calculate_technical_indicators sorter qsqrt data in
             let analysis := generate_market_insights ticker data df in
             dict_set ticker analysis analyses
         end)
      stock_data_dict [] in
  (* Portfolio-level recommendations *)
  let buy_count := count "BUY" analyses in
  let sell_count := count "SELL" analyses in
  let wait_count := count "WAIT" analyses in
  let portfolio_sentiment :=
    if (buy_count >? sell_count)%Z then "bullish"
    else if (sell_count >? buy_count)%Z then "bearish"
    else "neutral" in
  {| individual_analyses := analyses;
     portfolio_summary :=
       {| total_stocks := Z.of_nat (List.length analyses);
          buy_recommendations := buy_count;
          sell_recommendations := sell_count;
          wait_recommendations := wait_count;
          overall_sentiment := portfolio_sentiment |};
     portfolio_recommendation := _get_portfolio_recommendation analyses |}.

End Analyze.

End Portfolio.

(* ================================================================== *)
(** * Properties of the scorer *)

Module ScorerFacts.
Import B64 Scorer.
Local Open Scope string_scope.

(** The three rules of the score, one summand each. *)
Definition rsi_points (rsi : float) : Z :=
  if ltb rsi (of_Z 30) then 2
  else if gtb rsi (of_Z 70) then -2
  else if leb (of_Z 30) rsi && leb rsi (of_Z 50) then 1
  else 0.

Definition trend_points (trend : string) : Z :=
  if trend =? "bullish" then 1 else if trend =? "bearish" then -1 else 0.

Definition price_points (price_change : float) : Z :=
  if gtb price_change (of_Z 5) then -1
  else if ltb price_change (of_Z (-5)) then 1
  else 0.

Lemma recommendation_score_sum rsi trend price_change :
  recommendation_score rsi trend price_change
  = rsi_points rsi + trend_points trend + price_points price_change.
Proof.
  unfold recommendation_score, rsi_points, trend_points, price_points.
  destruct (ltb rsi (of_Z 30)), (gtb rsi (of_Z 70)),
    (leb (of_Z 30) rsi && leb rsi (of_Z 50)),
    (trend =? "bullish"), (trend =? "bearish"),
    (gtb price_change (of_Z 5)), (ltb price_change (of_Z (-5)));
    reflexivity.
Qed.

(** A float above 70 is not below 30. *)
Lemma above_70_not_below_30 (x : float) :
  gtb x (of_Z 70) = true -> ltb x (of_Z 30) = false.
Proof.
  unfold gtb, ltb.
  set (c70 := of_Z 70). set (c30 := of_Z 30).
  vm_compute in c70, c30. subst c70 c30.
  unfold SFltb, SFcompare.
  destruct x as [s | s | | s m e]; try (destruct s); try discriminate;
    try reflexivity.
  destruct (Z.compare_spec (-46) e) as [E | E | E]; try discriminate.
  - subst e. intros _. reflexivity.
  - intros _. destruct (Z.compare_spec e (-48)) as [F | F | F];
      try reflexivity; lia.
Qed.


Lemma trend_points_bullish : trend_points "bullish" = 1.
Proof. reflexivity. Qed.

Lemma trend_points_bearish : trend_points "bearish" = -1.
Proof. reflexivity. Qed.

(** The three triples (action, confidence before rounding, holding period)
    the decision ladder chooses from. *)
Lemma decision_buy rsi trend price_change volatility llm_insights :
  2 <= recommendation_score rsi trend price_change ->
  _generate_recommendation rsi trend price_change volatility llm_insights
  = {| action := "BUY";
       confidence :=
         round (pymin (lit 9 10)
                  (add (volatility_confidence volatility) (lit 2 10))) 2;
       holding_period :=
         if ltb volatility (of_Z 2) then "medium-term (1-4 weeks)"
         else "short-term (1-7 days)";
       alternatives := alternative_strategies;
       reasoning := reasoning (_generate_recommendation rsi trend price_change
                                 volatility llm_insights) |}.
Proof.
  intros H. unfold _generate_recommendation.
  destruct (Z.geb_spec (recommendation_score rsi trend price_change) 2);
    [reflexivity | lia].
Qed.

Lemma decision_sell rsi trend price_change volatility llm_insights :
  recommendation_score rsi trend price_change <= -2 ->
  _generate_recommendation rsi trend price_change volatility llm_insights
  = {| action := "SELL";
       confidence :=
         round (pymin (lit 9 10)
                  (add (volatility_confidence volatility) (lit 2 10))) 2;
       holding_period := "immediate";
       alternatives := alternative_strategies;
       reasoning := reasoning (_generate_recommendation rsi trend price_change
                                 volatility llm_insights) |}.
Proof.
  intros H. unfold _generate_recommendation.
  destruct (Z.geb_spec (recommendation_score rsi trend price_change) 2);
    [lia |].
  destruct (Z.leb_spec (recommendation_score rsi trend price_change) (-2));
    [reflexivity | lia].
Qed.

Lemma decision_wait rsi trend price_change volatility llm_insights :
  -2 < recommendation_score rsi trend price_change < 2 ->
  _generate_recommendation rsi trend price_change volatility llm_insights
  = {| action := "WAIT";
       confidence := round (lit 6 10) 2;
       holding_period := "monitor for 1-2 weeks";
       alternatives := alternative_strategies;
       reasoning := reasoning (_generate_recommendation rsi trend price_change
                                 volatility llm_insights) |}.
Proof.
  intros H. unfold _generate_recommendation.
  destruct (Z.geb_spec (recommendation_score rsi trend price_change) 2);
    [lia |].
  destruct (Z.leb_spec (recommendation_score rsi trend price_change) (-2));
    [lia | reflexivity].
Qed.

(** The confidence before the action is decided is 0.5 or 0.3. *)
Lemma volatility_confidence_cases volatility :
  volatility_confidence volatility = lit 5 10
  \/ volatility_confidence volatility = lit 3 10.
Proof.
  unfold volatility_confidence.
  destruct (gtb volatility (of_Z 3)); [right | left]; reflexivity.
Qed.

(** After the boost of 0.2 the cap of 0.9 leaves the sum as it is, and
    rounding to two decimals gives 0.7 or 0.5. *)
Lemma boosted_confidence volatility :
  let boosted := add (volatility_confidence volatility) (lit 2 10) in
  pymin (lit 9 10) boosted = boosted
  /\ round boosted 2 = boosted
  /\ (boosted = lit 7 10 \/ boosted = lit 5 10).
Proof.
  destruct (volatility_confidence_cases volatility) as [E | E];
    cbv zeta; rewrite E; repeat split; try reflexivity.
  - left. reflexivity.
  - right. reflexivity.
Qed.

Lemma round_wait : round (lit 6 10) 2 = lit 6 10.
Proof. reflexivity. Qed.

(** C3: the narrative never influences the recommendation: for all
    inputs and any two values of [llm_insights] (absent, empty or any
    text), [_generate_recommendation] returns the same record, hence the
    same action, confidence and holding period. *)
Theorem narrative_never_influences
    (rsi : float) (trend : string) (price_change volatility : float)
    (narrative narrative' : option string) :
  let r := _generate_recommendation rsi trend price_change volatility
             narrative in
  let r' := _generate_recommendation rsi trend price_change volatility
              narrative' in
  r = r'
  /\ action r = action r'
  /\ confidence r = confidence r'
  /\ holding_period r = holding_period r'.
Proof.
  cbv zeta. repeat split; reflexivity.
Qed.

(** C6: the decision ladder.  A score of 2 or more gives BUY, a score of
    -2 or less gives SELL, any other score gives WAIT; on BUY and SELL the
    confidence returned is [min(0.9, confidence + 0.2)], on WAIT it is 0.6
    whatever the volatility. *)
Theorem decision_ladder
    (rsi : float) (trend : string) (price_change volatility : float)
    (llm_insights : option string) :
  let score := recommendation_score rsi trend price_change in
  let r := _generate_recommendation rsi trend price_change volatility
             llm_insights in
  let boosted :=
    pymin (lit 9 10) (add (volatility_confidence volatility) (lit 2 10)) in
  (2 <= score -> action r = "BUY" /\ confidence r = boosted)
  /\ (score <= -2 -> action r = "SELL" /\ confidence r = boosted)
  /\ (-2 < score < 2 -> action r = "WAIT" /\ confidence r = lit 6 10).
Proof.
  cbv zeta.
  destruct (boosted_confidence volatility) as (Hmin & Hround & _).
  split; [| split]; intros H; split.
  - rewrite (decision_buy _ _ _ _ _ H). reflexivity.
  - rewrite (decision_buy _ _ _ _ _ H). cbn [confidence].
    rewrite Hmin. exact Hround.
  - rewrite (decision_sell _ _ _ _ _ H). reflexivity.
  - rewrite (decision_sell _ _ _ _ _ H). cbn [confidence].
    rewrite Hmin. exact Hround.
  - rewrite (decision_wait _ _ _ _ _ H). reflexivity.
  - rewrite (decision_wait _ _ _ _ _ H). cbn [confidence].
    exact round_wait.
Qed.

(** C7: scoring is monotone in the trend: with the RSI and the price
    change fixed, the score for a bullish trend is at least the score for
    a bearish trend. *)
Theorem score_monotone_in_trend (rsi price_change : float) :
  recommendation_score rsi "bearish" price_change
  <= recommendation_score rsi "bullish" price_change.
Proof.
  rewrite !recommendation_score_sum.
  rewrite trend_points_bullish, trend_points_bearish. lia.
Qed.

(** C8: with an RSI above 70, a bullish trend and a 30-day price change
    above 5, the score is -2 and the action is SELL. *)
Theorem overbought_bullish_sells
    (rsi price_change volatility : float) (llm_insights : option string) :
  gtb rsi (of_Z 70) = true ->
  gtb price_change (of_Z 5) = true ->
  recommendation_score rsi "bullish" price_change = -2
  /\ action (_generate_recommendation rsi "bullish" price_change volatility
               llm_insights) = "SELL".
Proof.
  intros Hrsi Hprice.
  assert (Hscore : recommendation_score rsi "bullish" price_change = -2).
  { rewrite recommendation_score_sum, trend_points_bullish.
    unfold rsi_points, price_points.
    rewrite (above_70_not_below_30 rsi Hrsi), Hrsi, Hprice. reflexivity. }
  split; [exact Hscore |].
  rewrite decision_sell by lia. reflexivity.
Qed.

(** An RSI of 75.5, a 30-day change of 12.34 and a volatility of 1. *)
Lemma overbought_bullish_sells_witness :
  recommendation_score (lit 755 10) "bullish" (lit 1234 100) = -2
  /\ action (_generate_recommendation (lit 755 10) "bullish" (lit 1234 100)
               (of_Z 1) None) = "SELL".
Proof.
  apply (overbought_bullish_sells (lit 755 10) (lit 1234 100) (of_Z 1) None);
    reflexivity.
Defined.

(** C9: the confidence returned is 0.5, 0.6 or 0.7 (each of them is
    returned for some input), so it lies between 0.5 and 0.7 and is never
    negative, and the cap [min(0.9, confidence + 0.2)] never binds: the
    boosted confidence stays below 0.9. *)
Theorem confidence_values
    (rsi : float) (trend : string) (price_change volatility : float)
    (llm_insights : option string) :
  let c := confidence (_generate_recommendation rsi trend price_change
                         volatility llm_insights) in
  let boosted := add (volatility_confidence volatility) (lit 2 10) in
  (c = lit 5 10 \/ c = lit 6 10 \/ c = lit 7 10)
  /\ leb (lit 5 10) c = true
  /\ leb c (lit 7 10) = true
  /\ ltb c (of_Z 0) = false
  /\ pymin (lit 9 10) boosted = boosted
  /\ ltb boosted (lit 9 10) = true
  /\ confidence (_generate_recommendation (of_Z 25) "neutral" (of_Z 0)
                   (of_Z 4) None) = lit 5 10
  /\ confidence (_generate_recommendation (of_Z 60) "neutral" (of_Z 0)
                   (of_Z 4) None) = lit 6 10
  /\ confidence (_generate_recommendation (of_Z 25) "neutral" (of_Z 0)
                   (of_Z 1) None) = lit 7 10.
Proof.
  cbv zeta.
  destruct (boosted_confidence volatility) as (Hmin & Hround & Hval).
  assert (Hc :
    confidence (_generate_recommendation rsi trend price_change volatility
                  llm_insights) = lit 5 10
    \/ confidence (_generate_recommendation rsi trend price_change volatility
                     llm_insights) = lit 6 10
    \/ confidence (_generate_recommendation rsi trend price_change volatility
                     llm_insights) = lit 7 10).
  { destruct (Z_le_gt_dec 2 (recommendation_score rsi trend price_change))
      as [H | H].
    - rewrite (decision_buy _ _ _ _ _ H). cbn [confidence].
      rewrite Hmin, Hround. destruct Hval as [-> | ->]; auto.
    - destruct (Z_le_gt_dec (recommendation_score rsi trend price_change) (-2))
        as [H' | H'].
      + rewrite (decision_sell _ _ _ _ _ H'). cbn [confidence].
        rewrite Hmin, Hround. destruct Hval as [-> | ->]; auto.
      + rewrite decision_wait by lia. cbn [confidence].
        rewrite round_wait. auto. }
  split; [exact Hc |].
  split; [destruct Hc as [-> | [-> | ->]]; reflexivity |].
  split; [destruct Hc as [-> | [-> | ->]]; reflexivity |].
  split; [destruct Hc as [-> | [-> | ->]]; reflexivity |].
  split; [exact Hmin |].
  split; [destruct Hval as [-> | ->]; reflexivity |].
  repeat split; reflexivity.
Qed.

(** The four scores next to the thresholds. *)
Example score_2_buys :
  recommendation_score (of_Z 25) "neutral" (of_Z 0) = 2
  /\ action (_generate_recommendation (of_Z 25) "neutral" (of_Z 0) (of_Z 1)
               None) = "BUY".
Proof. split; reflexivity. Qed.

Example score_1_waits :
  recommendation_score (of_Z 40) "neutral" (of_Z 0) = 1
  /\ action (_generate_recommendation (of_Z 40) "neutral" (of_Z 0) (of_Z 1)
               None) = "WAIT".
Proof. split; reflexivity. Qed.

Example score_minus_1_waits :
  recommendation_score (of_Z 60) "bearish" (of_Z 0) = -1
  /\ action (_generate_recommendation (of_Z 60) "bearish" (of_Z 0) (of_Z 1)
               None) = "WAIT".
Proof. split; reflexivity. Qed.

Example score_minus_2_sells :
  recommendation_score (of_Z 75) "neutral" (of_Z 0) = -2
  /\ action (_generate_recommendation (of_Z 75) "neutral" (of_Z 0) (of_Z 1)
               None) = "SELL".
Proof. split; reflexivity. Qed.

(** An RSI in (50, 70] and a missing RSI fire no rule. *)
Example rsi_gap_scores_nothing :
  rsi_points (of_Z 60) = 0 /\ rsi_points nan = 0.
Proof. split; reflexivity. Qed.

Example reasoning_text :
  reasoning (_generate_recommendation (lit 755 10) "bullish" (lit 1234 100)
               (of_Z 1) (Some "narrative"))
  = "RSI: 75.5, Trend: bullish, Price Change: 12.34%".
Proof. reflexivity. Qed.

(** What the scorer can return as (action, confidence). *)
Definition scorer_pairs : list (string * float) :=
  [ ("BUY", lit 5 10); ("BUY", lit 7 10);
    ("SELL", lit 5 10); ("SELL", lit 7 10);
    ("WAIT", lit 6 10) ].

Lemma scorer_outcomes rsi trend price_change volatility llm_insights :
  let r := _generate_recommendation rsi trend price_change volatility
             llm_insights in
  In (action r, confidence r) scorer_pairs.
Proof.
  cbv zeta.
  destruct (boosted_confidence volatility) as (Hmin & Hround & Hval).
  destruct (Z_le_gt_dec 2 (recommendation_score rsi trend price_change))
    as [H | H].
  - rewrite (decision_buy _ _ _ _ _ H). cbn [action confidence].
    rewrite Hmin, Hround.
    destruct Hval as [-> | ->]; unfold scorer_pairs; simpl; auto.
  - destruct (Z_le_gt_dec (recommendation_score rsi trend price_change) (-2))
      as [H' | H'].
    + rewrite (decision_sell _ _ _ _ _ H'). cbn [action confidence].
      rewrite Hmin, Hround.
      destruct Hval as [-> | ->]; unfold scorer_pairs; simpl; auto 6.
    + rewrite decision_wait by lia. cbn [action confidence].
      rewrite round_wait. unfold scorer_pairs; simpl; auto 6.
Qed.

End ScorerFacts.

(* ================================================================== *)
(** * Properties of the portfolio aggregation *)

Module PortfolioFacts.
Import B64 Portfolio.
Local Open Scope string_scope.

(** The recommendation and the confidence of [a] are those of one call
    of the scorer. *)
Definition produced_by_scorer (a : Analysis) : Prop :=
  exists rsi trend price_change volatility llm_insights,
    let r := Scorer._generate_recommendation rsi trend price_change
               volatility llm_insights in
    recommendation a = Some (Scorer.action r)
    /\ confidence a = Some (Scorer.confidence r).

(** The analyses the scorer can produce. *)
Definition outcomes : list Analysis :=
  map (fun p => {| recommendation := Some (fst p);
                   confidence := Some (snd p) |})
      ScorerFacts.scorer_pairs.

(** The mean of the exact values of the floats, without rounding. *)
Definition exact_mean (l : list float) : Q :=
  (fold_right Qplus 0 (map to_Q l) / inject_Z (Z.of_nat (List.length l)))%Q.

(** The portfolio action as a function of the dict's values. *)
Definition portfolio_action (values : list Analysis) : string :=
  action (_get_portfolio_recommendation (map (pair "") values)).

(** Tickers each scored BUY with confidence 0.7: an RSI of 25, a neutral
    trend, no price change, a volatility of 1. *)
Definition buys (tickers : list string) : list (string * Analysis) :=
  let r := Scorer._generate_recommendation (of_Z 25) "neutral" (of_Z 0)
             (of_Z 1) None in
  map (fun ticker => (ticker, {| recommendation := Some (Scorer.action r);
                                 confidence := Some (Scorer.confidence r) |}))
      tickers.

Definition six_buys : list (string * Analysis) :=
  buys ["AAPL"; "MSFT"; "GOOG"; "AMZN"; "META"; "NVDA"].

Definition five_buys : list (string * Analysis) :=
  buys ["AAPL"; "MSFT"; "GOOG"; "AMZN"; "META"].

Definition eight_buys : list (string * Analysis) :=
  buys ["AAPL"; "MSFT"; "GOOG"; "AMZN"; "META"; "NVDA"; "TSLA"; "ORCL"].

Lemma produced_in_outcomes a : produced_by_scorer a -> In a outcomes.
Proof.
  intros (rsi & trend & pc & vol & llm & Hr & Hc).
  destruct a as [rec conf]. cbn [recommendation confidence] in *.
  subst rec conf.
  unfold outcomes.
  apply (in_map (fun p => {| recommendation := Some (fst p);
                             confidence := Some (snd p) |})
           _ _ (ScorerFacts.scorer_outcomes rsi trend pc vol llm)).
Qed.

Lemma values_of_pairs (values : list Analysis) :
  map snd (map (pair "") values) = values.
Proof.
  induction values as [| a l IH]; simpl; [reflexivity | now rewrite IH].
Qed.

(** The recommendation reads the values of the dict only. *)
Lemma recommendation_of_values analyses :
  action (_get_portfolio_recommendation analyses)
  = portfolio_action (map snd analyses).
Proof.
  unfold portfolio_action, _get_portfolio_recommendation.
  assert (Havg : avg_confidence (map (pair "") (map snd analyses))
                 = avg_confidence analyses).
  { unfold avg_confidence, confidence_list. now rewrite values_of_pairs. }
  assert (Hbuy : buy_ratio (map (pair "") (map snd analyses))
                 = buy_ratio analyses).
  { destruct analyses as [| a l]; [reflexivity |].
    change (buy_ratio (map (pair "") (map snd (a :: l))))
      with (div (of_Z (count "BUY" (map (pair "") (map snd (a :: l)))))
                (of_Z (Z.of_nat
                         (List.length (map (pair "") (map snd (a :: l))))))).
    unfold count. rewrite values_of_pairs, !length_map. reflexivity. }
  rewrite Havg, Hbuy. reflexivity.
Qed.

(** The binary64 mean of five confidences of 0.7 is 0.7; of six, the
    next float above it. *)
Example mean_of_five :
  np_mean (repeat (lit 7 10) 5) = lit 7 10.
Proof. reflexivity. Qed.

Example mean_of_six :
  np_mean (repeat (lit 7 10) 6) = S754_finite false 6305039478318695 (-53)
  /\ lit 7 10 = S754_finite false 6305039478318694 (-53).
Proof. split; reflexivity. Qed.

Lemma outcome_at_most_07 a :
  In a outcomes ->
  let c := match confidence a with Some c => c | None => lit 5 10 end in
  leb c (lit 7 10) = true /\ (to_Q c <= to_Q (lit 7 10))%Q.
Proof.
  unfold outcomes, ScorerFacts.scorer_pairs. cbn [map fst snd In].
  intros [<- | [<- | [<- | [<- | [<- | []]]]]]; cbv zeta;
    cbn [confidence]; (split; [reflexivity |]);
    unfold Qle; vm_compute; intros H; discriminate H.
Qed.

Lemma sum_at_most (M : Q) (l : list Q) :
  Forall (fun q => q <= M)%Q l ->
  (fold_right Qplus 0 l <= inject_Z (Z.of_nat (List.length l)) * M)%Q.
Proof.
  induction 1 as [| q l Hq _ IH].
  - cbn. rewrite Qmult_0_l. apply Qle_refl.
  - cbn [fold_right List.length]. rewrite Nat2Z.inj_succ.
    unfold Z.succ. rewrite inject_Z_plus.
    setoid_replace ((inject_Z (Z.of_nat (List.length l)) + inject_Z 1) * M)%Q
      with (M + inject_Z (Z.of_nat (List.length l)) * M)%Q by ring.
    apply Qplus_le_compat; assumption.
Qed.

Lemma exact_mean_at_most (M : Q) (l : list float) :
  l <> [] -> Forall (fun c => to_Q c <= M)%Q l -> (exact_mean l <= M)%Q.
Proof.
  intros Hne Hall. unfold exact_mean.
  apply Qle_shift_div_r.
  - change 0%Q with (inject_Z 0). rewrite <- Zlt_Qlt.
    destruct l; [congruence | cbn; lia].
  - rewrite Qmult_comm, <- (length_map to_Q l).
    apply sum_at_most. apply Forall_map. exact Hall.
Qed.

(** C1 (as the code has it): for the empty portfolio map the summary has
    zero BUY, SELL and WAIT counts and a neutral sentiment, and nothing is
    raised: [buy_ratio] is guarded to 0 and [avg_confidence], the mean of
    no number, is NaN.  The portfolio action is DEFENSIVE, since the ratio
    0 is below 0.3. *)
Theorem empty_portfolio_is_defensive
    (sorter : Engine.Sorter) (qsqrt : Q -> Q)
    (generate_market_insights :
       string -> list Engine.Bar -> list Engine.IndicatorRow -> Analysis) :
  let r := analyze_multiple_stocks sorter qsqrt generate_market_insights [] in
  individual_analyses r = []
  /\ total_stocks (portfolio_summary r) = 0
  /\ buy_recommendations (portfolio_summary r) = 0
  /\ sell_recommendations (portfolio_summary r) = 0
  /\ wait_recommendations (portfolio_summary r) = 0
  /\ overall_sentiment (portfolio_summary r) = "neutral"
  /\ buy_ratio (individual_analyses r) = of_Z 0
  /\ avg_confidence (individual_analyses r) = nan
  /\ action (portfolio_recommendation r) = "DEFENSIVE".
Proof.
  cbv zeta. repeat split.
Qed.

(** C1 as stated fails: the action for the empty map is not WAIT. *)
Lemma empty_portfolio_is_not_wait :
  action (portfolio_recommendation
            (analyze_multiple_stocks Engine.stable_sorter Exact.floor_sqrt
               (fun _ _ _ => {| recommendation := None; confidence := None |})
               []))
  <> "WAIT".
Proof.
  change (action (portfolio_recommendation
                    (analyze_multiple_stocks Engine.stable_sorter
                       Exact.floor_sqrt
                       (fun _ _ _ => {| recommendation := None;
                                        confidence := None |}) [])))
    with "DEFENSIVE".
  discriminate.
Qed.

(** What the claim reasons from holds of every non-empty map of scored
    recommendations: no confidence is above 0.7, and neither is their
    mean before it is rounded. *)
Lemma scored_mean_at_most_07 (analyses : list (string * Analysis)) :
  analyses <> [] ->
  Forall produced_by_scorer (map snd analyses) ->
  Forall (fun c => leb c (lit 7 10) = true) (confidence_list analyses)
  /\ (exact_mean (confidence_list analyses) <= to_Q (lit 7 10))%Q.
Proof.
  intros Hne Hall.
  assert (Hout : Forall (fun a => In a outcomes) (map snd analyses)).
  { eapply Forall_impl; [| exact Hall]. exact produced_in_outcomes. }
  split.
  - unfold confidence_list. apply Forall_map.
    eapply Forall_impl; [| exact Hout].
    intros a Ha. exact (proj1 (outcome_at_most_07 a Ha)).
  - apply exact_mean_at_most.
    + unfold confidence_list. destruct analyses; [congruence | discriminate].
    + unfold confidence_list. apply Forall_map.
      eapply Forall_impl; [| exact Hout].
      intros a Ha. exact (proj2 (outcome_at_most_07 a Ha)).
Qed.

Lemma buys_produced_by_scorer (tickers : list string) :
  Forall produced_by_scorer (map snd (buys tickers)).
Proof.
  unfold buys. rewrite map_map. cbn [snd]. apply Forall_map, Forall_forall.
  intros ticker _.
  exists (of_Z 25), "neutral", (of_Z 0), (of_Z 1), None.
  split; reflexivity.
Qed.

(** C10: the code breaks the claim.  Six tickers that the scorer rates BUY
    with confidence 0.7: every confidence is 0.7 and their mean is exactly
    0.7, but the binary64 mean that [np.mean] returns is
    0.7000000000000001, so [avg_confidence > 0.7] holds and the action is
    AGGRESSIVE_BUY.  Five or eight such tickers have a binary64 mean of
    0.7 and the action is MODERATE_BUY. *)
Theorem six_buys_reach_aggressive_buy :
  six_buys <> []
  /\ Forall produced_by_scorer (map snd six_buys)
  /\ confidence_list six_buys = repeat (lit 7 10) 6
  /\ (exact_mean (confidence_list six_buys) == to_Q (lit 7 10))%Q
  /\ gtb (avg_confidence six_buys) (lit 7 10) = true
  /\ action (_get_portfolio_recommendation six_buys) = "AGGRESSIVE_BUY"
  /\ avg_confidence five_buys = lit 7 10
  /\ action (_get_portfolio_recommendation five_buys) = "MODERATE_BUY"
  /\ avg_confidence eight_buys = lit 7 10
  /\ action (_get_portfolio_recommendation eight_buys) = "MODERATE_BUY".
Proof.
  split; [discriminate |].
  split; [apply buys_produced_by_scorer |].
  split; [reflexivity |].
  split; [unfold Qeq; vm_compute; reflexivity |].
  repeat split; vm_compute; reflexivity.
Qed.

End PortfolioFacts.

(* ================================================================== *)
(** * Properties of the indicator engine *)

Module EngineFacts.
Import Exact Pandas Engine.
Local Open Scope string_scope.

(** *** Columns and windows *)

Lemma nth_map_seq {A : Type} (f : nat -> A) (n i : nat) (d : A) :
  (i < n)%nat -> nth i (map f (seq 0 n)) d = f i.
Proof.
  intros Hi.
  rewrite (nth_indep _ d (f 0%nat)) by now rewrite length_map, length_seq.
  rewrite map_nth, seq_nth by assumption. reflexivity.
Qed.

Lemma nth_error_map_seq {A : Type} (f : nat -> A) (n i : nat) (r : A) :
  nth_error (map f (seq 0 n)) i = Some r -> (i < n)%nat /\ r = f i.
Proof.
  intros H.
  assert (Hi : (i < List.length (map f (seq 0 n)))%nat)
    by (apply nth_error_Some; congruence).
  rewrite length_map, length_seq in Hi.
  split; [exact Hi |].
  apply (nth_error_nth _ _ r) in H.
  rewrite nth_map_seq in H by assumption. congruence.
Qed.

Lemma length_rolling {A B : Type} (w : nat) (f : list A -> B) (xs : list A) :
  List.length (rolling w f xs) = List.length xs.
Proof. unfold rolling. now rewrite length_map, length_seq. Qed.

Lemma nth_rolling {A B : Type} (w : nat) (f : list A -> B) (xs : list A)
    (i : nat) (d : B) :
  (i < List.length xs)%nat -> nth i (rolling w f xs) d = f (window w i xs).
Proof. intros Hi. unfold rolling. now rewrite nth_map_seq. Qed.


Lemma length_map2 {A B C : Type} (f : A -> B -> C) xs ys :
  List.length xs = List.length ys ->
  List.length (map2 f xs ys) = List.length xs.
Proof.
  intros H. unfold map2. rewrite length_map, length_combine. lia.
Qed.

Lemma nth_map2 {A B C : Type} (f : A -> B -> C) xs ys i dx dy d :
  List.length xs = List.length ys -> (i < List.length xs)%nat ->
  nth i (map2 f xs ys) d = f (nth i xs dx) (nth i ys dy).
Proof.
  intros Hlen Hi. unfold map2.
  rewrite (nth_indep _ d (f dx dy))
    by (rewrite length_map, length_combine; lia).
  pose proof (map_nth (fun p => f (fst p) (snd p)) (combine xs ys)
                (dx, dy) i) as H.
  cbn [fst snd] in H. rewrite H, combine_nth by assumption. reflexivity.
Qed.

(** *** The sort *)

(** Inserting in front of a sorted list whose rows are not earlier. *)
Lemma insert_head b l :
  Forall (by_timestamp b) l -> insert b l = b :: l.
Proof.
  destruct 1 as [| x t Hx _]; cbn [insert]; [reflexivity |].
  unfold by_timestamp in Hx.
  destruct (Z.leb_spec (timestamp b) (timestamp x)); [reflexivity | lia].
Qed.

(** The insertion sort leaves a sorted frame as it is. *)
Lemma insertion_sort_fixed df :
  StronglySorted by_timestamp df -> insertion_sort df = df.
Proof.
  induction 1 as [| b l Hl IH Hb]; [reflexivity |].
  cbn [insertion_sort fold_right]. fold (insertion_sort l).
  rewrite IH. apply insert_head. exact Hb.
Qed.

(** The insertion sort is stable: the rows of any one timestamp keep
    their order. *)
Lemma insert_stable (k : Z) b l :
  filter (fun x => (timestamp x =? k)%Z) (insert b l)
  = filter (fun x => (timestamp x =? k)%Z) (b :: l).
Proof.
  induction l as [| x t IH]; cbn [insert]; [reflexivity |].
  destruct (Z.leb_spec (timestamp b) (timestamp x)) as [Hle | Hgt];
    [reflexivity |].
  cbn [filter] in *. rewrite IH.
  destruct (Z.eqb_spec (timestamp x) k), (Z.eqb_spec (timestamp b) k);
    try reflexivity; lia.
Qed.

Lemma insertion_sort_stable (k : Z) df :
  filter (fun x => (timestamp x =? k)%Z) (insertion_sort df)
  = filter (fun x => (timestamp x =? k)%Z) df.
Proof.
  induction df as [| b l IH]; [reflexivity |].
  cbn [insertion_sort fold_right]. fold (insertion_sort l).
  rewrite insert_stable. cbn [filter]. now rewrite IH.
Qed.

(** Two sorted frames with the same rows, no two of one timestamp, are
    the same frame. *)
Lemma sorted_unique (l l' : list Bar) :
  StronglySorted by_timestamp l -> StronglySorted by_timestamp l' ->
  Permutation l l' -> NoDup (map timestamp l) -> l = l'.
Proof.
  intros Hl. revert l'.
  induction Hl as [| a t Ht IH Ha]; intros l' Hl' Hperm Hnd.
  - apply Permutation_nil in Hperm. now subst.
  - destruct Hl' as [| b t' Ht' Hb].
    + apply Permutation_sym, Permutation_nil in Hperm. discriminate.
    + assert (Hab : a = b).
      { assert (Hin_a : In a (b :: t'))
          by (eapply Permutation_in; [exact Hperm | now left]).
        assert (Hin_b : In b (a :: t))
          by (eapply Permutation_in;
              [apply Permutation_sym; exact Hperm | now left]).
        destruct Hin_a as [-> | Hin_a]; [reflexivity |].
        destruct Hin_b as [-> | Hin_b]; [reflexivity |].
        exfalso.
        rewrite Forall_forall in Ha, Hb.
        specialize (Ha _ Hin_b). specialize (Hb _ Hin_a).
        unfold by_timestamp in Ha, Hb.
        cbn [map] in Hnd. inversion Hnd as [| ? ? Hnotin _]; subst.
        apply Hnotin.
        replace (timestamp a) with (timestamp b) by lia.
        now apply in_map. }
      subst b. f_equal.
      apply IH.
      * exact Ht'.
      * eapply Permutation_cons_inv. exact Hperm.
      * cbn [map] in Hnd. now inversion Hnd.
Qed.

(** With no two rows of one timestamp, any two sorts agree on any two
    orderings of the frame. *)
Lemma sort_values_of_permutation (sorter sorter' : Sorter) (s p : list Bar) :
  Permutation s p -> NoDup (map timestamp s) ->
  sort_values sorter' p = sort_values sorter s.
Proof.
  intros Hperm Hnd.
  symmetry. apply sorted_unique; try apply sort_values_sorted.
  - rewrite !sort_values_perm. exact Hperm.
  - eapply Permutation_NoDup; [| exact Hnd].
    apply Permutation_map, Permutation_sym, sort_values_perm.
Qed.

Lemma length_sort_values (sorter : Sorter) df :
  List.length (sort_values sorter df) = List.length df.
Proof. apply Permutation_length, sort_values_perm. Qed.

(** *** Rows of the result *)

Lemma sort_values_nil (sorter : Sorter) : sort_values sorter [] = [].
Proof.
  apply Permutation_nil, Permutation_sym, sort_values_perm.
Qed.

Lemma calculate_technical_indicators_eq sorter qsqrt df :
  calculate_technical_indicators sorter qsqrt df
  = add_indicators qsqrt (sort_values sorter df).
Proof.
  destruct df; [| reflexivity].
  rewrite sort_values_nil. reflexivity.
Qed.

Lemma length_add_indicators qsqrt df :
  List.length (add_indicators qsqrt df) = List.length df.
Proof. unfold add_indicators. now rewrite length_map, length_seq. Qed.

(** Row [i] of the result reads row [i] of every column. *)
Lemma add_indicators_row qsqrt df i r :
  nth_error (add_indicators qsqrt df) i = Some r ->
  (i < List.length df)%nat
  /\ row_close r = nth i (close_column df) NaN
  /\ sma_20 r = nth i (rolling_mean 20 (close_column df)) NaN
  /\ sma_50 r = nth i (rolling_mean 50 (close_column df)) NaN
  /\ rsi r = nth i (rsi_column (close_column df)) NaN
  /\ bb_middle r = nth i (rolling_mean 20 (close_column df)) NaN
  /\ bb_upper r = nth i (bb_upper_column qsqrt (close_column df)) NaN
  /\ bb_lower r = nth i (bb_lower_column qsqrt (close_column df)) NaN
  /\ volume_sma r = nth i (rolling_mean 20 (volume_column df)) NaN
  /\ trend r = nth i (trend_column (close_column df)) "neutral".
Proof.
  unfold add_indicators. intros H.
  apply nth_error_map_seq in H. destruct H as [Hi ->].
  repeat split; try reflexivity. exact Hi.
Qed.

Lemma nth_rolling_mean w s i :
  (i < List.length s)%nat ->
  nth i (rolling_mean w s) NaN = mean (window w i s).
Proof. apply nth_rolling. Qed.

Lemma nth_rolling_std qsqrt w s i :
  (i < List.length s)%nat ->
  nth i (rolling_std qsqrt w s) NaN = std qsqrt (window w i s).
Proof. apply nth_rolling. Qed.

Lemma nth_doubled (s : Series) i :
  nth i (map (fun x => mul x (of_Z 2)) s) NaN = mul (nth i s NaN) (of_Z 2).
Proof.
  exact (map_nth (fun x => mul x (of_Z 2)) s NaN i).
Qed.

(** The bands of row [i]: the window mean plus and minus twice the
    window standard deviation. *)
Lemma nth_bb_upper qsqrt (s : Series) i :
  (i < List.length s)%nat ->
  nth i (bb_upper_column qsqrt s) NaN
  = add (mean (window 20 i s)) (mul (std qsqrt (window 20 i s)) (of_Z 2)).
Proof.
  intros Hi. unfold bb_upper_column.
  rewrite (nth_map2 _ _ _ _ NaN NaN).
  - now rewrite nth_doubled, nth_rolling_mean, nth_rolling_std.
  - unfold rolling_mean, rolling_std. now rewrite length_map, !length_rolling.
  - unfold rolling_mean. now rewrite length_rolling.
Qed.

Lemma nth_bb_lower qsqrt (s : Series) i :
  (i < List.length s)%nat ->
  nth i (bb_lower_column qsqrt s) NaN
  = sub (mean (window 20 i s)) (mul (std qsqrt (window 20 i s)) (of_Z 2)).
Proof.
  intros Hi. unfold bb_lower_column.
  rewrite (nth_map2 _ _ _ _ NaN NaN).
  - now rewrite nth_doubled, nth_rolling_mean, nth_rolling_std.
  - unfold rolling_mean, rolling_std. now rewrite length_map, !length_rolling.
  - unfold rolling_mean. now rewrite length_rolling.
Qed.

Lemma nth_trend (s : Series) i :
  (i < List.length s)%nat ->
  nth i (trend_column s) "neutral"
  = trend_label (nth i s NaN) (mean (window 20 i s)).
Proof.
  intros Hi. unfold trend_column.
  rewrite (nth_map2 _ _ _ _ NaN NaN).
  - now rewrite nth_rolling_mean.
  - unfold rolling_mean. now rewrite length_rolling.
  - exact Hi.
Qed.

Lemma length_close_column df : List.length (close_column df) = List.length df.
Proof. apply length_map. Qed.


(** *** Series of one value *)

Local Open Scope Q_scope.

(** [x] is the finite number [a]. *)
Definition is_val (a : Q) (x : num) : Prop :=
  match x with
  | Fin q => q == a
  | _ => False
  end.

Lemma is_val_eq a b x : a == b -> is_val a x -> is_val b x.
Proof.
  destruct x; cbn; try contradiction. intros Hab Hq. now rewrite Hq.
Qed.

Lemma is_val_add a b x y :
  is_val a x -> is_val b y -> is_val (a + b) (add x y).
Proof.
  destruct x, y; cbn; try contradiction. intros Ha Hb. now rewrite Ha, Hb.
Qed.

Lemma is_val_neg a x : is_val a x -> is_val (- a) (neg x).
Proof.
  destruct x; cbn; try contradiction. intros Ha. now rewrite Ha.
Qed.

Lemma is_val_sub a b x y :
  is_val a x -> is_val b y -> is_val (a - b) (sub x y).
Proof.
  intros Ha Hb. unfold sub, Qminus. apply is_val_add; [exact Ha |].
  now apply is_val_neg.
Qed.

Lemma is_val_mul a b x y :
  is_val a x -> is_val b y -> is_val (a * b) (mul x y).
Proof.
  destruct x, y; cbn; try contradiction. intros Ha Hb. now rewrite Ha, Hb.
Qed.

Lemma is_val_div a b x y :
  is_val a x -> is_val b y -> ~ b == 0 -> is_val (a / b) (div x y).
Proof.
  destruct x as [p | | |], y as [q | | |]; cbn; try contradiction.
  intros Ha Hb Hnz.
  destruct (Qeq_bool q 0) eqn:E.
  - apply Qeq_bool_eq in E. rewrite Hb in E. contradiction.
  - cbn. now rewrite Ha, Hb.
Qed.

Lemma is_val_of_nat n : is_val (inject_Z (Z.of_nat n)) (of_nat n).
Proof. cbn. reflexivity. Qed.

Lemma of_nat_nonzero n : (0 < n)%nat -> ~ inject_Z (Z.of_nat n) == 0.
Proof.
  intros Hn H. unfold Qeq in H. cbn in H. lia.
Qed.

Lemma observations_finite a (l : Series) :
  Forall (is_val a) l -> observations l = l.
Proof.
  induction 1 as [| x l Hx _ IH]; [reflexivity |].
  unfold observations in *. cbn [filter]. rewrite IH.
  destruct x; cbn in Hx; try contradiction. reflexivity.
Qed.

Lemma fold_add_constant a s (l : Series) acc :
  is_val s acc -> Forall (is_val a) l ->
  is_val (s + inject_Z (Z.of_nat (List.length l)) * a) (fold_left add l acc).
Proof.
  intros Hacc Hall. revert s acc Hacc.
  induction Hall as [| x l Hx _ IH]; intros s acc Hacc.
  - cbn. eapply is_val_eq; [| exact Hacc]. ring.
  - cbn [fold_left List.length].
    eapply is_val_eq; [| apply IH, (is_val_add _ _ _ _ Hacc Hx)].
    rewrite Nat2Z.inj_succ. unfold Z.succ. rewrite inject_Z_plus. ring.
Qed.

Lemma sum_constant a (l : Series) :
  Forall (is_val a) l ->
  is_val (inject_Z (Z.of_nat (List.length l)) * a) (sum l).
Proof.
  intros Hall. unfold sum.
  eapply is_val_eq; [| apply (fold_add_constant a 0 l zero)].
  - ring.
  - cbn. reflexivity.
  - exact Hall.
Qed.

Lemma average_constant a (l : Series) :
  Forall (is_val a) l -> (0 < List.length l)%nat ->
  is_val a (div (sum l) (of_nat (List.length l))).
Proof.
  intros Hall Hlen.
  eapply is_val_eq;
    [| apply (is_val_div _ _ _ _ (sum_constant a l Hall)
                (is_val_of_nat (List.length l)))].
  - field. now apply of_nat_nonzero.
  - now apply of_nat_nonzero.
Qed.

(** The mean of a window of one value is that value. *)
Lemma mean_constant a (l : Series) :
  Forall (is_val a) l -> (0 < List.length l)%nat -> is_val a (mean l).
Proof.
  intros Hall Hlen. unfold mean.
  rewrite (observations_finite a l Hall).
  destruct l as [| x t]; [cbn in Hlen; lia |].
  now apply average_constant.
Qed.

(** The variance of a window of one value, two rows or more, is 0. *)
Lemma var_constant a (l : Series) :
  Forall (is_val a) l -> (2 <= List.length l)%nat -> is_val 0 (var l).
Proof.
  intros Hall Hlen. unfold var.
  rewrite (observations_finite a l Hall).
  destruct (Nat.leb_spec (List.length l) 1) as [Hle | _]; [lia |].
  pose proof (average_constant a l Hall ltac:(lia)) as Hm.
  set (m := div (sum l) (of_nat (List.length l))) in *.
  assert (Hsq : Forall (is_val ((a - a) * (a - a)))
                  (map (fun x => mul (sub x m) (sub x m)) l)).
  { apply Forall_map. eapply Forall_impl; [| exact Hall].
    intros x Hx. apply is_val_mul; now apply is_val_sub. }
  pose proof (sum_constant _ _ Hsq) as Hsum.
  rewrite length_map in Hsum.
  eapply is_val_eq;
    [| apply (is_val_div _ _ _ _ Hsum (is_val_of_nat (List.length l - 1)))].
  - field. apply of_nat_nonzero. lia.
  - apply of_nat_nonzero. lia.
Qed.

(** The variance of a single row is missing. *)
Lemma var_single a (l : Series) :
  Forall (is_val a) l -> List.length l = 1%nat -> var l = NaN.
Proof.
  intros Hall Hlen. unfold var.
  rewrite (observations_finite a l Hall), Hlen. reflexivity.
Qed.

Lemma Forall_firstn {A : Type} (P : A -> Prop) n (l : list A) :
  Forall P l -> Forall P (firstn n l).
Proof.
  intros H. revert n. induction H; intros [| n]; cbn; auto.
Qed.

Lemma Forall_skipn {A : Type} (P : A -> Prop) n (l : list A) :
  Forall P l -> Forall P (skipn n l).
Proof.
  intros H. revert n. induction H; intros [| n]; cbn; auto.
Qed.

Lemma Forall_window {A : Type} (P : A -> Prop) w i (l : list A) :
  Forall P l -> Forall P (window w i l).
Proof. intros H. now apply Forall_skipn, Forall_firstn. Qed.

Lemma length_window {A : Type} w i (l : list A) :
  (i < List.length l)%nat ->
  List.length (window w i l) = Nat.min w (i + 1).
Proof.
  intros Hi. unfold window. rewrite length_skipn, length_firstn. lia.
Qed.

Lemma Forall_rolling {A B : Type} (P : B -> Prop) w (f : list A -> B) l :
  (forall i, (i < List.length l)%nat -> P (f (window w i l))) ->
  Forall P (rolling w f l).
Proof.
  intros H. unfold rolling. apply Forall_map, Forall_forall.
  intros i Hi. apply in_seq in Hi. apply H. lia.
Qed.

Lemma Forall_map2 {A B C : Type} (P : A -> Prop) (R : B -> Prop)
    (T : C -> Prop) (f : A -> B -> C) xs ys :
  (forall x y, P x -> R y -> T (f x y)) ->
  Forall P xs -> Forall R ys -> Forall T (map2 f xs ys).
Proof.
  intros Hf Hxs. revert ys.
  induction Hxs as [| x xs Hx _ IH]; intros ys Hys; [constructor |].
  destruct Hys as [| y ys Hy Hys]; [constructor |].
  unfold map2 in *. cbn. constructor; [now apply Hf | now apply IH].
Qed.

Lemma nth_all {A : Type} (d : A) l i : Forall (eq d) l -> nth i l d = d.
Proof.
  intros H. revert i. induction H as [| x l Hx _ IH]; intros [| i]; cbn; auto.
Qed.

Lemma nth_is_val a (l : Series) i :
  Forall (is_val a) l -> (i < List.length l)%nat -> is_val a (nth i l NaN).
Proof.
  intros H Hi. rewrite Forall_forall in H. apply H, nth_In, Hi.
Qed.

(** The deltas of a series of one value are 0, the first one missing. *)
Lemma diff_constant a (s : Series) prev :
  prev = NaN \/ is_val a prev ->
  Forall (is_val a) s ->
  Forall (fun d => d = NaN \/ is_val 0 d) (diff_from prev s).
Proof.
  intros Hprev Hall. revert prev Hprev.
  induction Hall as [| x s Hx _ IH]; intros prev Hprev; cbn [diff_from].
  - constructor.
  - constructor; [| apply IH; now right].
    destruct Hprev as [-> | Hprev].
    + left. destruct x; cbn in Hx; try contradiction. reflexivity.
    + right. eapply is_val_eq; [| apply (is_val_sub _ _ _ _ Hx Hprev)]. ring.
Qed.

Lemma no_gain d : d = NaN \/ is_val 0 d -> gtb d zero = false.
Proof.
  intros [-> | H]; [reflexivity |].
  destruct d as [q | | |]; cbn in H; try contradiction.
  cbn. unfold Qltb. apply negb_false_iff, Qle_bool_iff.
  rewrite H. apply Qle_refl.
Qed.

Lemma no_loss d : d = NaN \/ is_val 0 d -> ltb d zero = false.
Proof.
  intros [-> | H]; [reflexivity |].
  destruct d as [q | | |]; cbn in H; try contradiction.
  cbn. unfold Qltb. apply negb_false_iff, Qle_bool_iff.
  rewrite H. apply Qle_refl.
Qed.

(** On a series of one value the mean gain and the mean loss are 0 on
    every row. *)
Lemma gain_constant a (s : Series) :
  Forall (is_val a) s -> Forall (is_val 0) (gain_column s).
Proof.
  intros Hall. unfold gain_column, rolling_mean.
  assert (Hin : Forall (is_val 0)
                  (series_where (fun d => gtb d zero) zero (diff s))).
  { unfold series_where. apply Forall_map.
    eapply Forall_impl; [| apply (diff_constant a s NaN); auto].
    intros d Hd. cbn beta. rewrite (no_gain d Hd). cbn. reflexivity. }
  apply Forall_rolling. intros i Hi.
  apply mean_constant; [now apply Forall_window |].
  rewrite length_window by assumption. lia.
Qed.

Lemma loss_constant a (s : Series) :
  Forall (is_val a) s -> Forall (is_val 0) (loss_column s).
Proof.
  intros Hall. unfold loss_column, rolling_mean.
  assert (Hin : Forall (is_val 0)
                  (map neg (series_where (fun d => ltb d zero) zero
                              (diff s)))).
  { unfold series_where. rewrite map_map. apply Forall_map.
    eapply Forall_impl; [| apply (diff_constant a s NaN); auto].
    intros d Hd. cbn beta. rewrite (no_loss d Hd). cbn. reflexivity. }
  apply Forall_rolling. intros i Hi.
  apply mean_constant; [now apply Forall_window |].
  rewrite length_window by assumption. lia.
Qed.

(** Zero over zero: the RSI is missing. *)
Lemma rsi_zero_over_zero g l :
  is_val 0 g -> is_val 0 l -> rsi_of_rs (div g l) = NaN.
Proof.
  destruct g as [p | | |], l as [q | | |]; cbn [is_val]; try contradiction.
  intros Hp Hq. cbn [div].
  rewrite (Qeq_eq_bool _ _ Hq), (Qeq_eq_bool _ _ Hp). reflexivity.
Qed.

(** A positive gain over a zero loss: the RSI is 100. *)
Lemma rsi_gain_over_zero (gain loss : Q) :
  0 < gain -> loss == 0 ->
  eqb (rsi_of_rs (div (Fin gain) (Fin loss))) (of_Z 100) = true.
Proof.
  intros Hg Hl. cbn [div].
  rewrite (Qeq_eq_bool _ _ Hl).
  destruct (Qeq_bool gain 0) eqn:E.
  - apply Qeq_bool_eq in E. rewrite E in Hg. now apply Qlt_irrefl in Hg.
  - assert (Hpos : Qltb gain 0 = false).
    { unfold Qltb. apply negb_false_iff, Qle_bool_iff, Qlt_le_weak, Hg. }
    rewrite Hpos. reflexivity.
Qed.

Lemma rsi_constant a (s : Series) :
  Forall (is_val a) s -> Forall (eq NaN) (rsi_column s).
Proof.
  intros Hall. unfold rsi_column. apply Forall_map.
  apply (Forall_map2 (is_val 0) (is_val 0)).
  - intros g l Hg Hl. symmetry. now apply rsi_zero_over_zero.
  - now apply (gain_constant a).
  - now apply (loss_constant a).
Qed.

(** Two finite numbers of one value compare equal, and neither is below
    the other. *)
Lemma eqb_is_val a x y : is_val a x -> is_val a y -> eqb x y = true.
Proof.
  destruct x, y; cbn; try contradiction. intros Hx Hy.
  apply Qeq_eq_bool. now rewrite Hx, Hy.
Qed.

Lemma trend_label_equal a x y :
  is_val a x -> is_val a y -> trend_label x y = "neutral"%string.
Proof.
  destruct x as [p | | |], y as [q | | |]; cbn [is_val]; try contradiction.
  intros Hp Hq. unfold trend_label, gtb, ltb, Qltb.
  assert (H1 : Qle_bool p q = true) by (apply Qle_bool_iff; rewrite Hp, Hq; apply Qle_refl).
  assert (H2 : Qle_bool q p = true) by (apply Qle_bool_iff; rewrite Hp, Hq; apply Qle_refl).
  rewrite H1, H2. reflexivity.
Qed.

(** *** Reading the order of rationals off the boolean tests *)

Lemma Qltb_lt (a b : Q) : Qltb a b = true <-> (a < b)%Q.
Proof.
  unfold Qltb. rewrite negb_true_iff. split.
  - intros H. apply Qnot_le_lt. intros Hle.
    apply Qle_bool_iff in Hle. congruence.
  - intros H. destruct (Qle_bool b a) eqn:E; [| reflexivity].
    apply Qle_bool_iff in E. exfalso. exact (Qlt_not_le _ _ H E).
Qed.

Lemma Qltb_ge (a b : Q) : Qltb a b = false <-> (b <= a)%Q.
Proof.
  unfold Qltb. rewrite negb_false_iff. apply Qle_bool_iff.
Qed.

(** *** The mean gain and the mean loss *)

(** What the engine averages for the gain and for the loss. *)
Definition gain_inputs (s : Series) : Series :=
  series_where (fun d => gtb d zero) zero (diff s).

Definition loss_inputs (s : Series) : Series :=
  map neg (series_where (fun d => ltb d zero) zero (diff s)).

Lemma length_diff_from (prev : num) (s : Series) :
  List.length (diff_from prev s) = List.length s.
Proof.
  revert prev. induction s as [| x s IH]; intros prev; cbn;
    [reflexivity | now rewrite IH].
Qed.

Lemma length_loss_inputs (s : Series) :
  List.length (loss_inputs s) = List.length s.
Proof.
  unfold loss_inputs, series_where, diff.
  now rewrite !length_map, length_diff_from.
Qed.

Lemma length_gain_inputs (s : Series) :
  List.length (gain_inputs s) = List.length s.
Proof.
  unfold gain_inputs, series_where, diff.
  now rewrite length_map, length_diff_from.
Qed.

Lemma nth_gain_column (s : Series) (i : nat) :
  (i < List.length s)%nat ->
  nth i (gain_column s) NaN = mean (window 14 i (gain_inputs s)).
Proof.
  intros Hi. unfold gain_column. fold (gain_inputs s).
  apply nth_rolling_mean. now rewrite length_gain_inputs.
Qed.

Lemma nth_loss_column (s : Series) (i : nat) :
  (i < List.length s)%nat ->
  nth i (loss_column s) NaN = mean (window 14 i (loss_inputs s)).
Proof.
  intros Hi. unfold loss_column. fold (loss_inputs s).
  apply nth_rolling_mean. now rewrite length_loss_inputs.
Qed.

(** The RSI of row [i] is made of the mean gain and the mean loss of
    row [i]. *)
Lemma nth_rsi_column (s : Series) (i : nat) :
  (i < List.length s)%nat ->
  nth i (rsi_column s) NaN
  = rsi_of_rs (div (nth i (gain_column s) NaN) (nth i (loss_column s) NaN)).
Proof.
  intros Hi. unfold rsi_column.
  change NaN with (rsi_of_rs NaN) at 1. rewrite map_nth. f_equal.
  assert (Hg : List.length (gain_column s) = List.length s).
  { unfold gain_column, rolling_mean. fold (gain_inputs s).
    now rewrite length_rolling, length_gain_inputs. }
  assert (Hl : List.length (loss_column s) = List.length s).
  { unfold loss_column, rolling_mean. fold (loss_inputs s).
    now rewrite length_rolling, length_loss_inputs. }
  apply nth_map2; lia.
Qed.

(** A positive mean gain over a zero mean loss. *)
Lemma rsi_saturated (g l : num) :
  (exists m, g = Fin m /\ 0 < m) -> is_val 0 l ->
  rsi_of_rs (div g l) = of_Z 100.
Proof.
  intros (m & -> & Hm) Hl.
  destruct l as [q | | |]; cbn in Hl; try contradiction.
  cbn [div]. rewrite (Qeq_eq_bool _ _ Hl).
  assert (E1 : Qeq_bool m 0 = false).
  { destruct (Qeq_bool m 0) eqn:E; [| reflexivity].
    apply Qeq_bool_eq in E. lra. }
  assert (E2 : Qltb m 0 = false) by (apply Qltb_ge; lra).
  rewrite E1, E2. reflexivity.
Qed.


(** *** Windows with finite cells *)






















(** *** The mean gain and the mean loss of a price that moved *)







Local Close Scope Q_scope.

(** Rows for examples: a timestamp and one price for every price
    column. *)
Definition bar_at (t price : Z) : Bar :=
  {| timestamp := t;
     open := Num (of_Z price);
     high := Num (of_Z price);
     low := Num (of_Z price);
     close := Num (of_Z price);
     volume := Num (of_Z 1000) |}.


(** *** Rows below the window size *)


Lemma length_pct_from prev s : List.length (pct_from prev s) = List.length s.
Proof.
  revert prev. induction s as [| x t IH]; intros prev; cbn; [reflexivity |].
  now rewrite IH.
Qed.

Lemma length_ffill_from prev s :
  List.length (ffill_from prev s) = List.length s.
Proof.
  revert prev. induction s as [| x t IH]; intros prev; cbn; [reflexivity |].
  now rewrite IH.
Qed.

Lemma length_pct_change s : List.length (pct_change s) = List.length s.
Proof. unfold pct_change. now rewrite length_pct_from, length_ffill_from. Qed.




(** Two rows of one timestamp. *)
Definition tied_rows : list Bar := [bar_at 1 10; bar_at 1 20].

(** Three rows of distinct timestamps, out of order. *)
Definition shuffled_rows : list Bar := [bar_at 2 10; bar_at 1 20; bar_at 3 30].

(** Another sort: the insertion sort of the reversed frame, which leaves
    rows of one timestamp in the reverse of their input order. *)
Lemma reversing_sort_perm df : Permutation (insertion_sort (rev df)) df.
Proof.
  rewrite insertion_sort_perm. apply Permutation_sym, Permutation_rev.
Qed.

Definition reversing_sorter : Sorter :=
  {| sort_values := fun df => insertion_sort (rev df);
     sort_values_perm := reversing_sort_perm;
     sort_values_sorted := fun df => insertion_sort_sorted (rev df) |}.

(** C5 as stated fails: swapping two rows of one timestamp changes the
    output.  On a frame this short the sort is the insertion sort, which
    reads the timestamps only and leaves the two rows in their input
    order. *)
Lemma tied_rows_order_matters :
  Permutation tied_rows (rev tied_rows)
  /\ calculate_technical_indicators stable_sorter floor_sqrt (rev tied_rows)
     <> calculate_technical_indicators stable_sorter floor_sqrt
          (sort_values stable_sorter tied_rows).
Proof.
  split; [apply Permutation_rev |].
  intros H. apply (f_equal (map row_close)) in H.
  vm_compute in H. discriminate H.
Qed.

(** On rows of one timestamp two sorts need not agree. *)
Example tied_rows_depend_on_the_sort :
  map row_close (calculate_technical_indicators stable_sorter floor_sqrt
                   tied_rows)
  = [of_Z 10; of_Z 20]
  /\ map row_close (calculate_technical_indicators reversing_sorter floor_sqrt
                      tied_rows)
     = [of_Z 20; of_Z 10].
Proof. split; reflexivity. Qed.

Lemma map_seq_nth {A : Type} (l : list A) (d : A) :
  map (fun i => nth i l d) (seq 0 (List.length l)) = l.
Proof.
  induction l as [| x l IH]; [reflexivity |].
  cbn [List.length seq map nth]. f_equal.
  rewrite <- seq_shift, map_map. exact IH.
Qed.

Lemma rows_timestamp qsqrt df :
  map row_timestamp (add_indicators qsqrt df) = map timestamp df.
Proof.
  unfold add_indicators. rewrite map_map. cbn [row_timestamp].
  rewrite <- (length_map timestamp df). apply map_seq_nth.
Qed.

Lemma sorted_timestamps (l : list Bar) :
  StronglySorted by_timestamp l -> StronglySorted Z.le (map timestamp l).
Proof.
  induction 1 as [| b l Hl IH Hb]; cbn [map]; constructor; [exact IH |].
  apply Forall_map. exact Hb.
Qed.

(** C5 (as the code has it): the engine sorts by timestamp itself, so when
    no two rows share a timestamp its output on any permutation of a frame
    is its output on the frame and on the sorted frame, whichever sort is
    used, and the rows of the output are in ascending order of
    timestamp. *)
Theorem input_order_invariance
    (sorter sorter' : Sorter) (qsqrt : Q -> Q) (s p : list Bar) :
  Permutation s p ->
  NoDup (map timestamp s) ->
  calculate_technical_indicators sorter qsqrt p
  = calculate_technical_indicators sorter qsqrt s
  /\ calculate_technical_indicators sorter qsqrt p
     = calculate_technical_indicators sorter qsqrt (sort_values sorter s)
  /\ calculate_technical_indicators sorter' qsqrt p
     = calculate_technical_indicators sorter qsqrt s
  /\ StronglySorted Z.le
       (map row_timestamp (calculate_technical_indicators sorter qsqrt p)).
Proof.
  intros Hperm Hnd.
  rewrite !calculate_technical_indicators_eq.
  rewrite (sort_values_of_permutation sorter sorter s p Hperm Hnd).
  rewrite (sort_values_of_permutation sorter sorter' s p Hperm Hnd).
  rewrite (sort_values_of_permutation sorter sorter s (sort_values sorter s)
             (Permutation_sym (sort_values_perm sorter s)) Hnd).
  repeat split.
  rewrite rows_timestamp. apply sorted_timestamps, sort_values_sorted.
Qed.

Lemma input_order_invariance_witness :
  Permutation shuffled_rows (rev shuffled_rows)
  /\ NoDup (map timestamp shuffled_rows)
  /\ calculate_technical_indicators stable_sorter floor_sqrt
       (rev shuffled_rows)
     = calculate_technical_indicators stable_sorter floor_sqrt shuffled_rows
  /\ calculate_technical_indicators reversing_sorter floor_sqrt
       (rev shuffled_rows)
     = calculate_technical_indicators stable_sorter floor_sqrt shuffled_rows.
Proof.
  assert (Hperm : Permutation shuffled_rows (rev shuffled_rows))
    by apply Permutation_rev.
  assert (Hnd : NoDup (map timestamp shuffled_rows)).
  { cbn. repeat constructor; cbn; intuition discriminate. }
  split; [exact Hperm |].
  split; [exact Hnd |].
  pose proof (input_order_invariance stable_sorter reversing_sorter floor_sqrt
                shuffled_rows (rev shuffled_rows) Hperm Hnd)
    as (H1 & _ & H3 & _).
  split; [exact H1 | exact H3].
Defined.

(** Six rows rising from 100 to 150: no loss, so the RSI is 100 from the
    second row on, and the trend is bullish there. *)
Definition rising_rows : list Bar :=
  map (fun t => bar_at (Z.of_nat t) (100 + 10 * Z.of_nat t)) (seq 0 6).

Example rising_series_rsi :
  map (fun r => (rsi r, trend r))
      (calculate_technical_indicators stable_sorter floor_sqrt rising_rows)
  = (NaN, "neutral") :: repeat (Fin 100, "bullish") 5.
Proof. vm_compute. reflexivity. Qed.

(** Their first three rows: means over one, two and three rows. *)
Example early_rows_of_rising_rows :
  map (fun r => (sma_20 r, sma_50 r, rsi r, volume_sma r))
      (firstn 3 (calculate_technical_indicators stable_sorter floor_sqrt
                   rising_rows))
  = [ (Fin 100, Fin 100, NaN, Fin 1000);
      (Fin (210 # 2), Fin (210 # 2), Fin 100, Fin (2000 # 2));
      (Fin (330 # 3), Fin (330 # 3), Fin 100, Fin (3000 # 3)) ].
Proof. vm_compute. reflexivity. Qed.

Lemma floor_sqrt_zero (q : Q) : (q == 0 -> floor_sqrt q == 0)%Q.
Proof.
  unfold Qeq, floor_sqrt. cbn. intros H.
  replace (Qnum q) with 0%Z by lia. reflexivity.
Qed.

(** Twenty rows with a close of 100, at the timestamps 0 to 19. *)
Definition constant_rows : list Bar :=
  map (fun t => bar_at (Z.of_nat t) 100) (seq 0 20).

(** C2 as stated fails: on the constant series the RSI of the second row
    is missing, not 100 (and [== 100] is false of it). *)
Lemma constant_series_rsi_is_missing :
  exists r,
    nth_error (calculate_technical_indicators stable_sorter floor_sqrt
                 constant_rows) 1
    = Some r
    /\ rsi r = NaN
    /\ eqb (rsi r) (of_Z 100) = false.
Proof.
  eexists. split; [vm_compute; reflexivity |].
  split; reflexivity.
Qed.

(** C2 (as the code has it): the RSI never raises on a zero loss.  On
    every row of every frame the RSI is [100 - 100 / (1 + gain / loss)]
    for the 14-row mean gain and mean loss of that row: a positive mean
    gain over a zero mean loss gives 100, zero over zero gives a missing
    value.  On a series of one close every row has a missing RSI and the
    trend neutral; the first row has missing bands and every later row
    has [bb_upper == bb_lower == bb_middle]. *)
Theorem constant_series_indicators
    (sorter : Sorter) (qsqrt : Q -> Q) (c : Q) (df : list Bar) :
  (forall i r,
      nth_error (calculate_technical_indicators sorter qsqrt df) i = Some r ->
      let close := close_column (sort_values sorter df) in
      let gain := nth i (gain_column close) NaN in
      let loss := nth i (loss_column close) NaN in
      gain = mean (window 14 i (gain_inputs close))
      /\ loss = mean (window 14 i (loss_inputs close))
      /\ rsi r = rsi_of_rs (div gain loss)
      /\ (is_val 0 loss -> (exists g, gain = Fin g /\ (0 < g)%Q) ->
          rsi r = of_Z 100)
      /\ (is_val 0 loss -> is_val 0 gain -> rsi r = NaN))
  /\ ((forall q, q == 0 -> qsqrt q == 0)%Q ->
      Forall (fun b => is_val c (to_numeric (close b))) df ->
      forall i r,
        nth_error (calculate_technical_indicators sorter qsqrt df) i
        = Some r ->
        rsi r = NaN
        /\ trend r = "neutral"
        /\ (i = 0%nat -> bb_upper r = NaN /\ bb_lower r = NaN)
        /\ ((1 <= i)%nat ->
            eqb (bb_upper r) (bb_lower r) = true
            /\ eqb (bb_lower r) (bb_middle r) = true)).
Proof.
  split.
  { intros i r Hr. cbv zeta.
    rewrite calculate_technical_indicators_eq in Hr.
    apply add_indicators_row in Hr.
    destruct Hr as (Hi & _ & _ & _ & Hrsi & _).
    set (s := close_column (sort_values sorter df)) in *.
    assert (Hlen : (i < List.length s)%nat)
      by (unfold s; now rewrite length_close_column).
    rewrite nth_rsi_column in Hrsi by exact Hlen.
    split; [now apply nth_gain_column |].
    split; [now apply nth_loss_column |].
    split; [exact Hrsi |].
    split.
    - intros Hl Hg. rewrite Hrsi. now apply rsi_saturated.
    - intros Hl Hg. rewrite Hrsi. now apply rsi_zero_over_zero. }
  intros Hsqrt Hconst i r Hr.
  rewrite calculate_technical_indicators_eq in Hr.
  apply add_indicators_row in Hr.
  destruct Hr as (Hi & _ & _ & _ & Hrsi & Hmid & Hup & Hlow & _ & Htrend).
  set (s := close_column (sort_values sorter df)) in *.
  assert (Hs : Forall (is_val c) s).
  { unfold s, close_column. apply Forall_map.
    apply (Permutation_Forall (Permutation_sym (sort_values_perm sorter df))).
    exact Hconst. }
  assert (Hlen : (i < List.length s)%nat)
    by (unfold s; now rewrite length_close_column).
  assert (Hw : Forall (is_val c) (window 20 i s)) by now apply Forall_window.
  assert (Hwlen : List.length (window 20 i s) = Nat.min 20 (i + 1))
    by now apply length_window.
  assert (Hmean : is_val c (mean (window 20 i s)))
    by (apply mean_constant; [exact Hw | lia]).
  rewrite nth_bb_upper in Hup by assumption.
  rewrite nth_bb_lower in Hlow by assumption.
  rewrite nth_rolling_mean in Hmid by assumption.
  split; [rewrite Hrsi; apply nth_all; now apply (rsi_constant c) |].
  split.
  { rewrite Htrend, nth_trend by assumption.
    apply (trend_label_equal c); [now apply nth_is_val | exact Hmean]. }
  split.
  - intros ->. rewrite Hup, Hlow. unfold std.
    rewrite (var_single c) by (assumption || (rewrite Hwlen; reflexivity)).
    destruct (mean (window 20 0 s)); cbn in Hmean; try contradiction.
    split; reflexivity.
  - intros Hi1.
    assert (Hstd : is_val 0 (std qsqrt (window 20 i s))).
    { unfold std.
      pose proof (var_constant c _ Hw ltac:(lia)) as Hvar.
      destruct (var (window 20 i s)) as [v | | |]; cbn in Hvar;
        try contradiction.
      cbn [sqrt]. unfold Qltb.
      assert (Hv : Qle_bool 0 v = true)
        by (apply Qle_bool_iff; rewrite Hvar; apply Qle_refl).
      rewrite Hv. cbn. now apply Hsqrt. }
    assert (Hdouble : is_val (0 * 2)
                        (mul (std qsqrt (window 20 i s)) (of_Z 2)))
      by (apply is_val_mul; [exact Hstd | cbn; reflexivity]).
    assert (Hupper : is_val c (bb_upper r)).
    { rewrite Hup. eapply is_val_eq;
        [| apply (is_val_add _ _ _ _ Hmean Hdouble)]. ring. }
    assert (Hlower : is_val c (bb_lower r)).
    { rewrite Hlow. eapply is_val_eq;
        [| apply (is_val_sub _ _ _ _ Hmean Hdouble)]. ring. }
    rewrite Hmid.
    split; now apply (eqb_is_val c).
Qed.

Lemma constant_series_indicators_witness :
  (forall q, q == 0 -> floor_sqrt q == 0)%Q
  /\ Forall (fun b => is_val 100 (to_numeric (close b))) constant_rows
  /\ forall i r,
      nth_error (calculate_technical_indicators stable_sorter floor_sqrt
                   constant_rows) i
      = Some r ->
      rsi r = NaN
      /\ trend r = "neutral"
      /\ (i = 0%nat -> bb_upper r = NaN /\ bb_lower r = NaN)
      /\ ((1 <= i)%nat ->
          eqb (bb_upper r) (bb_lower r) = true
          /\ eqb (bb_lower r) (bb_middle r) = true).
Proof.
  assert (Hconst : Forall (fun b => is_val 100 (to_numeric (close b)))
                     constant_rows).
  { unfold constant_rows. apply Forall_map, Forall_forall.
    intros t _. cbn. reflexivity. }
  split; [exact floor_sqrt_zero |].
  split; [exact Hconst |].
  exact (proj2 (constant_series_indicators stable_sorter floor_sqrt 100
                  constant_rows) floor_sqrt_zero Hconst).
Defined.

(** On the rising rows the mean loss is 0 and the mean gain positive from
    the second row on. *)
Example rising_series_gain_and_loss :
  map (fun i => (nth i (gain_column (close_column rising_rows)) NaN,
                 nth i (loss_column (close_column rising_rows)) NaN))
      [1%nat; 2%nat]
  = [(Fin (10 # 2), Fin (0 # 2)); (Fin (20 # 3), Fin (0 # 3))].
Proof. vm_compute. reflexivity. Qed.

End EngineFacts.

(* ================================================================== *)
(** ** Per-ticker insights *)

Module Insights.
Import Pandas Engine.
Local Open Scope string_scope.

(** The keys [_get_bb_position] reads, any of which may be absent. *)
Record BandData := {
  data_close : option Exact.num;
  data_bb_upper : option Exact.num;
  data_bb_lower : option Exact.num
}.

(** A row of the indicator frame, which has all three keys. *)
Definition band_data (r : IndicatorRow) : BandData :=
  {| data_close := Some (row_close r);
     data_bb_upper := Some (bb_upper r);
     data_bb_lower := Some (bb_lower r) |}.

Definition _get_bb_position (data : BandData) : string :=
  match data_close data, data_bb_upper data, data_bb_lower data with
  | Some close, Some upper, Some lower =>
      if Exact.gtb close upper then "above_upper"
      else if Exact.ltb close lower then "below_lower"
      else "within_bands"
  | _, _, _ => "unknown"
  end.

(** [float(x)] of a cell of the indicator frame: the binary64 number
    nearest to the cell's value. *)
Definition to_float (x : Exact.num) : B64.float :=
  match x with
  | Exact.Fin q => B64.lit (Qnum q) (Qden q)
  | Exact.PInf => S754_infinity false
  | Exact.NInf => S754_infinity true
  | Exact.NaN => S754_nan
  end.

Record TechnicalSummary := {
  summary_sma_20 : B64.float;
  summary_sma_50 : B64.float;
  summary_macd : B64.float;
  summary_rsi : B64.float;
  bb_position : string
}.

(** The dict [generate_market_insights] returns for a frame with rows
    (the clock reading [analysis_date] is left out). *)
Record MarketInsights := {
  ticker : string;
  current_price : B64.float;
  price_change_30d : B64.float;
  volatility : B64.float;
  rsi : B64.float;
  trend : string;
  technical_summary : TechnicalSummary;
  llm_insights : string;
  recommendation : string;
  confidence : B64.float;
  holding_period : string;
  alternative_strategies : list Scorer.Alternative
}.

(** The two shapes of the returned dict. *)
Inductive Result : Type :=
| InsufficientData (error recommendation : string) (confidence : B64.float)
| Analysed (insights : MarketInsights).

(** [df.tail(n)]. *)
Definition tail_rows {A : Type} (n : nat) (df : list A) : list A :=
  skipn (List.length df - n) df.

Section MarketInsights.
(** [_create_analysis_prompt] followed by [_get_llm_analysis]: the text
    the language model returns for a ticker and its frame. *)
Variable llm_analysis : string -> list IndicatorRow -> string.

Definition generate_market_insights (ticker : string)
    (stock_data : list Bar) (technical_indicators : list IndicatorRow)
  : Result :=
  match technical_indicators with
  | [] =>
      InsufficientData "Insufficient data for analysis" "WAIT" B64.zero
  | first :: _ =>
      let latest := last technical_indicators first in
      let recent_data := tail_rows 30 technical_indicators in
      (* Calculate key metrics *)
      let current_price := to_float (row_close latest) in
      let oldest_close := to_float (row_close (hd first recent_data)) in
      let price_change_30d :=
        B64.mul (B64.div (B64.sub current_price oldest_close) oldest_close)
                (B64.of_Z 100) in
      let volatility :=
        B64.mul (to_float (Engine.volatility latest)) (B64.of_Z 100) in
      let rsi := to_float (Engine.rsi latest) in
      let trend := Engine.trend latest in
      (* Get LLM analysis *)
      let llm_analysis := llm_analysis ticker technical_indicators in
      (* Generate recommendation *)
      let recommendation :=
        Scorer._generate_recommendation rsi trend price_change_30d
          volatility (Some llm_analysis) in
      Analysed
        {| ticker := ticker;
           current_price := current_price;
           price_change_30d := price_change_30d;
           volatility := volatility;
           rsi := rsi;
           trend := trend;
           technical_summary :=
             {| summary_sma_20 := to_float (sma_20 latest);
                summary_sma_50 := to_float (sma_50 latest);
                summary_macd := to_float (macd latest);
                summary_rsi := rsi;
                bb_position := _get_bb_position (band_data latest) |};
           llm_insights := llm_analysis;
           recommendation := Scorer.action recommendation;
           confidence := Scorer.confidence recommendation;
           holding_period := Scorer.holding_period recommendation;
           alternative_strategies := Scorer.alternatives recommendation |}
  end.

(** The keys of the returned dict that the aggregation reads. *)
Definition analysis_of (r : Result) : Portfolio.Analysis :=
  match r with
  | InsufficientData _ recommendation confidence =>
      {| Portfolio.recommendation := Some recommendation;
         Portfolio.confidence := Some confidence |}
  | Analysed i =>
      {| Portfolio.recommendation := Some (recommendation i);
         Portfolio.confidence := Some (confidence i) |}
  end.

(** [analyze_multiple_stocks] with [generate_market_insights] in place. *)
Definition analyze_portfolio (sorter : Sorter) (qsqrt : Q -> Q)
    (stock_data_dict : list (string * list Bar))
  : Portfolio.PortfolioAnalysis :=
  Portfolio.analyze_multiple_stocks sorter qsqrt
    (fun ticker data df =>
       analysis_of (generate_market_insights ticker data df))
    stock_data_dict.

End MarketInsights.

End Insights.

(* ================================================================== *)
(** * Further properties of the indicator engine *)

Module EngineMore.
Import Exact Pandas Engine EngineFacts.
Local Open Scope string_scope.

(** *** All the columns of a row *)

Lemma add_indicators_row_rest qsqrt df i r :
  nth_error (add_indicators qsqrt df) i = Some r ->
  row_timestamp r = nth i (map timestamp df) 0%Z
  /\ row_volume r = nth i (volume_column df) NaN
  /\ ema_12 r = nth i (ewm_mean 12 (close_column df)) NaN
  /\ ema_26 r = nth i (ewm_mean 26 (close_column df)) NaN
  /\ volume_ratio r
     = nth i (map2 div (volume_column df)
                (rolling_mean 20 (volume_column df))) NaN
  /\ price_change r = nth i (pct_change (close_column df)) NaN
  /\ volatility r
     = nth i (rolling_std qsqrt 20 (pct_change (close_column df))) NaN.
Proof.
  unfold add_indicators. intros H.
  apply nth_error_map_seq in H. destruct H as [Hi ->].
  repeat split; reflexivity.
Qed.

(** *** The rows of the result are the sorted rows of the input *)

(** The timestamp, the close and the volume of a row. *)
Definition bar_cells (b : Bar) : Z * num * num :=
  (timestamp b, to_numeric (close b), to_numeric (volume b)).

Definition row_cells (r : IndicatorRow) : Z * num * num :=
  (row_timestamp r, row_close r, row_volume r).

Lemma rows_cells qsqrt df :
  map row_cells (add_indicators qsqrt df) = map bar_cells df.
Proof.
  unfold add_indicators. rewrite map_map. unfold row_cells, bar_cells.
  cbn [row_timestamp row_close row_volume].
  induction df as [| b df IH] using rev_ind; [reflexivity |].
  rewrite length_app, Nat.add_comm. cbn [List.length Nat.add].
  rewrite seq_S, !map_app. cbn [map Nat.add].
  f_equal.
  - rewrite <- IH. apply map_ext_in. intros i Hi. apply in_seq in Hi.
    unfold close_column, volume_column. rewrite !map_app.
    rewrite !app_nth1 by (rewrite length_map; lia). reflexivity.
  - unfold close_column, volume_column. rewrite !map_app.
    rewrite !app_nth2 by (rewrite length_map; lia).
    rewrite !length_map, Nat.sub_diag. reflexivity.
Qed.

(** X1: the rows of the result are the rows of the input in ascending
    order of timestamp.  Whatever the sort does with rows of one
    timestamp, the rows of the result, read as (timestamp, close, volume)
    with the close and the volume coerced to numbers, are a rearrangement
    of the rows of the input, no row lost, repeated or mixed with another,
    and their timestamps ascend. *)
Theorem rows_are_the_sorted_input
    (sorter : Sorter) (qsqrt : Q -> Q) (df : list Bar) :
  let rows := calculate_technical_indicators sorter qsqrt df in
  Permutation (map row_cells rows) (map bar_cells df)
  /\ Permutation (map row_timestamp rows) (map timestamp df)
  /\ StronglySorted Z.le (map row_timestamp rows).
Proof.
  cbv zeta. rewrite calculate_technical_indicators_eq.
  rewrite rows_timestamp, rows_cells.
  repeat split.
  - apply Permutation_map, sort_values_perm.
  - apply Permutation_map, sort_values_perm.
  - apply sorted_timestamps, sort_values_sorted.
Qed.

(** *** The first rows *)

Lemma sub_nan_r x : sub x NaN = NaN.
Proof. destruct x; reflexivity. Qed.

Lemma add_nan_r x : add x NaN = NaN.
Proof. destruct x; reflexivity. Qed.

Lemma div_nan_r x : div x NaN = NaN.
Proof. destruct x; reflexivity. Qed.

(** The first fractional change has no previous close. *)
Lemma pct_change_head s : exists t, pct_change s = [] \/ pct_change s = NaN :: t.
Proof.
  unfold pct_change. destruct s as [| x t]; cbn.
  - exists []. now left.
  - eexists. right. rewrite div_nan_r. reflexivity.
Qed.

(** Fewer than two observations: the sample variance is missing. *)
Lemma var_few (l : Series) :
  (List.length (observations l) <= 1)%nat -> var l = NaN.
Proof.
  intros H. unfold var.
  destruct (Nat.leb_spec (List.length (observations l)) 1); [reflexivity | lia].
Qed.

Lemma std_few qsqrt (l : Series) :
  (List.length (observations l) <= 1)%nat -> std qsqrt l = NaN.
Proof. intros H. unfold std. now rewrite var_few. Qed.

Lemma observations_le (l : Series) :
  (List.length (observations l) <= List.length l)%nat.
Proof. unfold observations. apply filter_length_le. Qed.

Lemma length_window_le {A : Type} (w i : nat) (l : list A) :
  (List.length (window w i l) <= i + 1)%nat.
Proof.
  unfold window. rewrite length_skipn, length_firstn. lia.
Qed.

(** The first RSI divides a zero mean gain by a zero mean loss. *)
Lemma rsi_column_head (s : Series) : nth 0 (rsi_column s) NaN = NaN.
Proof.
  destruct s as [| x t]; [reflexivity |].
  unfold rsi_column, gain_column, loss_column, diff.
  cbn [diff_from]. rewrite sub_nan_r. reflexivity.
Qed.

Lemma first_window_std qsqrt w (s : Series) : std qsqrt (window w 0 s) = NaN.
Proof.
  apply std_few.
  etransitivity; [apply observations_le |]. apply (length_window_le w 0).
Qed.

Lemma second_window_of_missing_head qsqrt w (t : Series) :
  std qsqrt (window w 1 (NaN :: t)) = NaN.
Proof.
  apply std_few. unfold window.
  generalize (1 + 1 - w)%nat. intros k.
  change (firstn (1 + 1) (NaN :: t)) with (NaN :: firstn 1 t).
  destruct k as [| k]; cbn [skipn].
  - change (observations (NaN :: firstn 1 t))
      with (observations (firstn 1 t)).
    etransitivity; [apply observations_le |]. apply firstn_le_length.
  - etransitivity; [apply observations_le |].
    rewrite length_skipn.
    pose proof (firstn_le_length 1 t). lia.
Qed.

(** X2: the warm-up rows of every frame.  The first row has no RSI, no
    upper and lower band, no price change and no volatility; the second
    row has no volatility either. *)
Theorem warm_up_rows_are_missing
    (sorter : Sorter) (qsqrt : Q -> Q) (df : list Bar) :
  (forall r,
      nth_error (calculate_technical_indicators sorter qsqrt df) 0 = Some r ->
      rsi r = NaN /\ bb_upper r = NaN /\ bb_lower r = NaN
      /\ price_change r = NaN /\ volatility r = NaN)
  /\ (forall r,
        nth_error (calculate_technical_indicators sorter qsqrt df) 1 = Some r ->
        volatility r = NaN).
Proof.
  rewrite calculate_technical_indicators_eq.
  set (s := close_column (sort_values sorter df)).
  destruct (pct_change_head s) as [t Hpct].
  split; intros r Hr.
  - pose proof (add_indicators_row _ _ _ _ Hr)
      as (Hi & _ & _ & _ & Hrsi & _ & Hup & Hlow & _).
    pose proof (add_indicators_row_rest _ _ _ _ Hr)
      as (_ & _ & _ & _ & _ & Hpc & Hvol).
    fold s in Hrsi, Hup, Hlow, Hpc, Hvol.
    assert (Hs : (0 < List.length s)%nat)
      by (unfold s; now rewrite length_close_column).
    rewrite nth_bb_upper in Hup by assumption.
    rewrite nth_bb_lower in Hlow by assumption.
    rewrite nth_rolling_std in Hvol by now rewrite length_pct_change.
    rewrite first_window_std in Hup, Hlow, Hvol.
    rewrite Hrsi, Hup, Hlow, Hpc, Hvol.
    repeat split.
    + apply rsi_column_head.
    + apply add_nan_r.
    + apply sub_nan_r.
    + destruct Hpct as [-> | ->]; reflexivity.
  - pose proof (add_indicators_row _ _ _ _ Hr) as (Hi & _).
    pose proof (add_indicators_row_rest _ _ _ _ Hr)
      as (_ & _ & _ & _ & _ & _ & Hvol).
    fold s in Hvol.
    rewrite nth_rolling_std in Hvol
      by (rewrite length_pct_change; unfold s;
          now rewrite length_close_column).
    rewrite Hvol.
    destruct Hpct as [E | E]; rewrite E.
    + apply std_few. cbn. lia.
    + apply second_window_of_missing_head.
Qed.

(** *** The bands around the mean *)

(** The standard deviation is missing, infinite or not negative. *)
Lemma std_cases qsqrt (l : Series) :
  (forall q, 0 <= qsqrt q)%Q ->
  std qsqrt l = NaN \/ std qsqrt l = PInf
  \/ exists t, std qsqrt l = Fin t /\ (0 <= t)%Q.
Proof.
  intros Hsqrt. unfold std, sqrt.
  destruct (var l) as [v | | |]; auto.
  destruct (Qltb v 0); auto.
  right. right. eexists. split; [reflexivity | apply Hsqrt].
Qed.

Lemma upper_not_below m s :
  s = NaN \/ s = PInf \/ (exists t, s = Fin t /\ (0 <= t)%Q) ->
  ltb (add m (mul s (of_Z 2))) m = false
  /\ ltb m (sub m (mul s (of_Z 2))) = false
  /\ forall c, gtb c (add m (mul s (of_Z 2))) = true -> gtb c m = true.
Proof.
  intros [-> | [-> | (t & -> & Ht)]].
  - cbn [mul of_Z]. rewrite add_nan_r, sub_nan_r.
    repeat split; try (destruct m; reflexivity).
    intros c. destruct c; cbn; discriminate.
  - destruct m as [a | | |]; cbn; repeat split; try reflexivity;
      intros c; destruct c; cbn; try discriminate; auto.
  - destruct m as [a | | |]; cbn [mul add sub neg of_Z ltb gtb].
    + assert (H2 : (0 <= t * inject_Z 2)%Q).
      { apply Qmult_le_0_compat; [exact Ht | discriminate]. }
      repeat split.
      * apply Qltb_ge.
        setoid_replace a with (a + 0)%Q at 1 by ring.
        apply Qplus_le_compat; [apply Qle_refl | exact H2].
      * apply Qltb_ge.
        setoid_replace a with (a + - 0)%Q at 2 by ring.
        apply Qplus_le_compat; [apply Qle_refl |].
        apply Qopp_le_compat. exact H2.
      * intros c. destruct c as [p | | |]; cbn; try discriminate; auto.
        rewrite !Qltb_lt. intros H.
        eapply Qle_lt_trans; [| exact H].
        setoid_replace a with (a + 0)%Q at 1 by ring.
        apply Qplus_le_compat; [apply Qle_refl | exact H2].
    + repeat split; try reflexivity.
      intros c. destruct c; cbn; discriminate.
    + repeat split; try reflexivity.
      intros c. destruct c; cbn; try discriminate; auto.
    + repeat split; try reflexivity.
      intros c. destruct c; cbn; discriminate.
Qed.

Lemma lower_not_above m s :
  s = NaN \/ s = PInf \/ (exists t, s = Fin t /\ (0 <= t)%Q) ->
  forall c, ltb c (sub m (mul s (of_Z 2))) = true -> ltb c m = true.
Proof.
  intros [-> | [-> | (t & -> & Ht)]] c.
  - cbn [mul of_Z]. rewrite sub_nan_r. destruct c; cbn; discriminate.
  - destruct m, c; cbn; try discriminate; auto.
  - destruct m as [a | | |], c as [p | | |];
      cbn [mul add sub neg of_Z ltb]; try discriminate; auto.
    rewrite !Qltb_lt. intros H.
    eapply Qlt_le_trans; [exact H |].
    assert (H2 : (0 <= t * inject_Z 2)%Q).
    { apply Qmult_le_0_compat; [exact Ht | discriminate]. }
    setoid_replace a with (a + - 0)%Q at 2 by ring.
    apply Qplus_le_compat; [apply Qle_refl |].
    apply Qopp_le_compat. exact H2.
Qed.

Lemma ltb_asym x y : ltb x y = true -> ltb y x = false.
Proof.
  destruct x as [a | | |], y as [b | | |]; cbn; try discriminate; auto.
  rewrite Qltb_lt, Qltb_ge. apply Qlt_le_weak.
Qed.

Lemma trend_label_above c m : gtb c m = true -> trend_label c m = "bullish".
Proof.
  intros H. unfold trend_label. rewrite H.
  unfold gtb in H. now rewrite (ltb_asym _ _ H).
Qed.

Lemma trend_label_below c m : ltb c m = true -> trend_label c m = "bearish".
Proof. intros H. unfold trend_label. now rewrite H. Qed.

Lemma floor_sqrt_nonneg (q : Q) : (0 <= floor_sqrt q)%Q.
Proof.
  unfold floor_sqrt, Qle. cbn. rewrite Z.mul_1_r. apply Z.sqrt_nonneg.
Qed.

(** One row: the mean and the standard deviation of its window. *)
Lemma row_bands sorter qsqrt df i r :
  nth_error (calculate_technical_indicators sorter qsqrt df) i = Some r ->
  let s := close_column (sort_values sorter df) in
  let m := mean (window 20 i s) in
  let sd := std qsqrt (window 20 i s) in
  row_close r = nth i s NaN
  /\ bb_middle r = m
  /\ bb_upper r = add m (mul sd (of_Z 2))
  /\ bb_lower r = sub m (mul sd (of_Z 2))
  /\ trend r = trend_label (nth i s NaN) m.
Proof.
  intros Hr. cbv zeta.
  rewrite calculate_technical_indicators_eq in Hr.
  apply add_indicators_row in Hr.
  destruct Hr as (Hi & Hc & _ & _ & _ & Hmid & Hup & Hlow & _ & Htrend).
  assert (Hlen : (i < List.length (close_column (sort_values sorter df)))%nat)
    by now rewrite length_close_column.
  rewrite Hc, Hmid, Hup, Hlow, Htrend.
  rewrite nth_bb_upper, nth_bb_lower, nth_rolling_mean, nth_trend
    by assumption.
  repeat split; reflexivity.
Qed.

(** Six closes of 10 and then one of 50. *)
Definition spike_rows : list Bar :=
  map (fun t => bar_at (Z.of_nat t) (if (t <? 6)%nat then 10 else 50))
      (seq 0 7).

Example spike_is_above_the_band :
  map (fun r => (Insights._get_bb_position (Insights.band_data r), trend r))
      (calculate_technical_indicators stable_sorter floor_sqrt spike_rows)
  = List.app (repeat ("within_bands", "neutral") 6)
             [("above_upper", "bullish")].
Proof. vm_compute. reflexivity. Qed.

(** X3: with a square root that is never negative the bands enclose the
    mean on every row: the upper band is not below the middle band and
    the middle band is not below the lower one. *)
Theorem bands_enclose_the_mean
    (sorter : Sorter) (qsqrt : Q -> Q) (df : list Bar) :
  (forall q, 0 <= qsqrt q)%Q ->
  forall i r,
    nth_error (calculate_technical_indicators sorter qsqrt df) i = Some r ->
    ltb (bb_upper r) (bb_middle r) = false
    /\ ltb (bb_middle r) (bb_lower r) = false
    /\ forall u m l,
        bb_upper r = Fin u -> bb_middle r = Fin m -> bb_lower r = Fin l ->
        (l <= m <= u)%Q.
Proof.
  intros Hsqrt i r Hr.
  destruct (row_bands _ _ _ _ _ Hr) as (_ & Hmid & Hup & Hlow & _).
  pose proof (upper_not_below
                (mean (window 20 i (close_column (sort_values sorter df)))) _
                (std_cases qsqrt
                   (window 20 i (close_column (sort_values sorter df))) Hsqrt))
    as (H1 & H2 & _).
  rewrite <- Hup, <- Hmid in H1. rewrite <- Hlow, <- Hmid in H2.
  split; [exact H1 |]. split; [exact H2 |].
  intros u m l Hu Hm Hl. rewrite Hu, Hm in H1. rewrite Hm, Hl in H2.
  cbn in H1, H2. apply Qltb_ge in H1, H2. split; assumption.
Qed.

Lemma bands_enclose_the_mean_witness :
  (forall q, 0 <= floor_sqrt q)%Q
  /\ forall i r,
      nth_error (calculate_technical_indicators stable_sorter floor_sqrt
                   spike_rows) i
      = Some r ->
      ltb (bb_upper r) (bb_middle r) = false
      /\ ltb (bb_middle r) (bb_lower r) = false
      /\ forall u m l,
          bb_upper r = Fin u -> bb_middle r = Fin m -> bb_lower r = Fin l ->
          (l <= m <= u)%Q.
Proof.
  split; [exact floor_sqrt_nonneg |].
  exact (bands_enclose_the_mean stable_sorter floor_sqrt spike_rows
           floor_sqrt_nonneg).
Defined.

(** X4: the band position of a row agrees with its trend.  With a square
    root that is never negative, a close above the upper band is a bullish
    row and a close below the lower band a bearish one; the position of a
    row of the frame is never "unknown". *)
Theorem band_position_agrees_with_trend
    (sorter : Sorter) (qsqrt : Q -> Q) (df : list Bar) :
  (forall q, 0 <= qsqrt q)%Q ->
  forall i r,
    nth_error (calculate_technical_indicators sorter qsqrt df) i = Some r ->
    let position := Insights._get_bb_position (Insights.band_data r) in
    (position = "above_upper" -> trend r = "bullish")
    /\ (position = "below_lower" -> trend r = "bearish")
    /\ position <> "unknown".
Proof.
  intros Hsqrt i r Hr. cbv zeta.
  destruct (row_bands _ _ _ _ _ Hr) as (Hc & Hmid & Hup & Hlow & Htrend).
  pose proof (std_cases qsqrt
                (window 20 i (close_column (sort_values sorter df))) Hsqrt) as Hsd.
  pose proof (upper_not_below
                (mean (window 20 i (close_column (sort_values sorter df)))) _ Hsd)
    as (_ & _ & Habove).
  pose proof (lower_not_above
                (mean (window 20 i (close_column (sort_values sorter df)))) _ Hsd)
    as Hbelow.
  rewrite <- Hup in Habove. rewrite <- Hlow in Hbelow.
  unfold Insights._get_bb_position, Insights.band_data.
  cbn [Insights.data_close Insights.data_bb_upper Insights.data_bb_lower].
  rewrite Htrend, <- Hc.
  destruct (gtb (row_close r) (bb_upper r)) eqn:Eup.
  - repeat split; try discriminate.
    intros _. apply trend_label_above. now apply Habove.
  - destruct (ltb (row_close r) (bb_lower r)) eqn:Elow.
    + repeat split; try discriminate.
      intros _. apply trend_label_below. now apply Hbelow.
    + repeat split; discriminate.
Qed.

Lemma band_position_agrees_with_trend_witness :
  (forall q, 0 <= floor_sqrt q)%Q
  /\ forall i r,
      nth_error (calculate_technical_indicators stable_sorter floor_sqrt
                   spike_rows) i
      = Some r ->
      let position := Insights._get_bb_position (Insights.band_data r) in
      (position = "above_upper" -> trend r = "bullish")
      /\ (position = "below_lower" -> trend r = "bearish")
      /\ position <> "unknown".
Proof.
  split; [exact floor_sqrt_nonneg |].
  exact (band_position_agrees_with_trend stable_sorter floor_sqrt spike_rows
           floor_sqrt_nonneg).
Defined.

(** Five rows falling from 100 to 60. *)
Definition falling_rows : list Bar :=
  map (fun t => bar_at (Z.of_nat t) (100 - 10 * Z.of_nat t)) (seq 0 5).

End EngineMore.

(* ================================================================== *)
(** * Properties of the per-ticker insights *)

Module InsightsFacts.
Import Pandas Engine EngineFacts EngineMore Insights.
Local Open Scope string_scope.

(** *** The 30-day change of an unchanged price *)

Lemma sub_self (x : B64.float) :
  B64.sub x x = B64.nan \/ B64.sub x x = S754_zero false.
Proof.
  destruct x as [s | s | | s m e].
  - right. destruct s; reflexivity.
  - left. destruct s; reflexivity.
  - left. reflexivity.
  - right. unfold B64.sub, SFsub. rewrite Z.sub_diag. reflexivity.
Qed.

(** [(x - x) / x * 100] is a zero or NaN: it fires no price rule. *)
Lemma unchanged_price_scores_nothing (x : B64.float) :
  ScorerFacts.price_points
    (B64.mul (B64.div (B64.sub x x) x) (B64.of_Z 100)) = 0%Z.
Proof.
  unfold ScorerFacts.price_points.
  destruct (sub_self x) as [-> | ->].
  - reflexivity.
  - destruct x as [s | s | | s m e]; try reflexivity; destruct s; reflexivity.
Qed.

(** *** The rows [generate_market_insights] reads *)

Lemma last_in {A : Type} (l : list A) (a d : A) : In (last (a :: l) d) (a :: l).
Proof.
  revert a. induction l as [| b l IH]; intros a; [now left |].
  right. apply IH.
Qed.

Lemma oldest_in {A : Type} (n : nat) (l : list A) (a : A) :
  In (hd a (tail_rows n (a :: l))) (a :: l).
Proof.
  unfold tail_rows.
  destruct (skipn (List.length (a :: l) - n) (a :: l)) as [| x t] eqn:E.
  - now left.
  - cbn [hd].
    assert (Hin : In x (skipn (List.length (a :: l) - n) (a :: l)))
      by (rewrite E; now left).
    rewrite <- (firstn_skipn (List.length (a :: l) - n) (a :: l)).
    apply in_or_app. now right.
Qed.

Lemma hd_skipn {A : Type} (k : nat) (l : list A) (d : A) :
  hd d (skipn k l) = nth k l d.
Proof.
  revert k. induction l as [| a l IH]; intros [| k]; try reflexivity.
  cbn [skipn nth]. apply IH.
Qed.

(** The last row of a frame of at least one row. *)
Lemma last_row {A : Type} (l : list A) (a d : A) :
  nth_error (a :: l) (List.length l) = Some (last (a :: l) d).
Proof.
  revert a. induction l as [| b l IH]; intros a; [reflexivity |].
  cbn [List.length nth_error]. rewrite IH. reflexivity.
Qed.

Lemma length_calculate sorter qsqrt df :
  List.length (calculate_technical_indicators sorter qsqrt df) = List.length df.
Proof.
  rewrite calculate_technical_indicators_eq, length_add_indicators.
  apply length_sort_values.
Qed.

Lemma rows_exist sorter qsqrt (b : Bar) (data : list Bar) :
  exists first rows,
    calculate_technical_indicators sorter qsqrt (b :: data) = first :: rows
    /\ List.length rows = List.length data.
Proof.
  pose proof (length_calculate sorter qsqrt (b :: data)) as Hlen.
  destruct (calculate_technical_indicators sorter qsqrt (b :: data))
    as [| first rows]; [discriminate |].
  exists first, rows. split; [reflexivity |]. cbn in Hlen. lia.
Qed.

(** *** Frames whose closes are all the same cell *)

Lemma diff_same (x prev : Exact.num) (s : Series) :
  prev = Exact.NaN \/ prev = x -> Forall (eq x) s ->
  Forall (fun d => d = Exact.NaN \/ is_val 0 d) (diff_from prev s).
Proof.
  intros Hprev Hall. revert prev Hprev.
  induction Hall as [| y s Hy _ IH]; intros prev Hprev; cbn [diff_from];
    constructor; [| apply IH; right; now symmetry].
  subst y. destruct Hprev as [-> | ->].
  - left. apply sub_nan_r.
  - destruct x as [q | | |]; try (left; reflexivity).
    right. cbn. ring.
Qed.

Lemma gain_of_flat (s : Series) :
  Forall (fun d => d = Exact.NaN \/ is_val 0 d) (diff s) ->
  Forall (is_val 0) (gain_column s).
Proof.
  intros Hd. unfold gain_column, rolling_mean.
  assert (Hin : Forall (is_val 0)
                  (series_where (fun d => Exact.gtb d Exact.zero)
                     Exact.zero (diff s))).
  { unfold series_where. apply Forall_map.
    eapply Forall_impl; [| exact Hd].
    intros d H. cbn beta. rewrite (no_gain d H). cbn. reflexivity. }
  apply Forall_rolling. intros i Hi.
  apply mean_constant; [now apply Forall_window |].
  rewrite length_window by assumption. lia.
Qed.

Lemma loss_of_flat (s : Series) :
  Forall (fun d => d = Exact.NaN \/ is_val 0 d) (diff s) ->
  Forall (is_val 0) (loss_column s).
Proof.
  intros Hd. unfold loss_column, rolling_mean.
  assert (Hin : Forall (is_val 0)
                  (map Exact.neg
                     (series_where (fun d => Exact.ltb d Exact.zero)
                        Exact.zero (diff s)))).
  { unfold series_where. rewrite map_map. apply Forall_map.
    eapply Forall_impl; [| exact Hd].
    intros d H. cbn beta. rewrite (no_loss d H). cbn. reflexivity. }
  apply Forall_rolling. intros i Hi.
  apply mean_constant; [now apply Forall_window |].
  rewrite length_window by assumption. lia.
Qed.

Lemma rsi_of_flat (x : Exact.num) (s : Series) :
  Forall (eq x) s -> Forall (eq Exact.NaN) (rsi_column s).
Proof.
  intros Hall.
  assert (Hd : Forall (fun d => d = Exact.NaN \/ is_val 0 d) (diff s))
    by (apply (diff_same x); auto).
  unfold rsi_column. apply Forall_map.
  apply (Forall_map2 (is_val 0) (is_val 0)).
  - intros g l Hg Hl. symmetry. now apply rsi_zero_over_zero.
  - now apply gain_of_flat.
  - now apply loss_of_flat.
Qed.

(** A window without a finite cell has no mean. *)
Lemma mean_no_observation (l : Series) :
  Forall (fun y => Exact.isfinite y = false) l -> mean l = Exact.NaN.
Proof.
  intros Hall. unfold mean.
  assert (Hobs : observations l = []).
  { unfold observations. induction Hall as [| y l Hy _ IH]; [reflexivity |].
    cbn [filter]. now rewrite Hy. }
  now rewrite Hobs.
Qed.

(** A close that equals every close of its window is neither above nor
    below the window mean. *)
Lemma trend_of_same (x : Exact.num) (l : Series) :
  Forall (eq x) l -> l <> [] -> trend_label x (mean l) = "neutral".
Proof.
  intros Hall Hne. destruct x as [q | | |].
  - apply (trend_label_equal q); [cbn; reflexivity |].
    apply mean_constant.
    + eapply Forall_impl; [| exact Hall]. intros y <-. cbn. reflexivity.
    + destruct l; [congruence | cbn; lia].
  - rewrite mean_no_observation; [reflexivity |].
    eapply Forall_impl; [| exact Hall]. now intros y <-.
  - rewrite mean_no_observation; [reflexivity |].
    eapply Forall_impl; [| exact Hall]. now intros y <-.
  - unfold trend_label. destruct (mean l); reflexivity.
Qed.

(** Every row of a frame of identical closes: that close, no RSI, a
    neutral trend. *)
Lemma flat_rows sorter qsqrt (x : Exact.num) (df : list Bar) :
  Forall (fun b => to_numeric (close b) = x) df ->
  Forall (fun r => row_close r = x /\ Engine.rsi r = Exact.NaN
                   /\ Engine.trend r = "neutral")
         (calculate_technical_indicators sorter qsqrt df).
Proof.
  intros Hdf.
  set (s := close_column (sort_values sorter df)).
  assert (Hs : Forall (eq x) s).
  { unfold s, close_column. apply Forall_map.
    apply (Permutation_Forall (Permutation_sym (sort_values_perm sorter df))).
    eapply Forall_impl; [| exact Hdf]. intros b Hb. now symmetry. }
  apply Forall_forall. intros r Hin.
  destruct (In_nth_error _ _ Hin) as [i Hr].
  rewrite calculate_technical_indicators_eq in Hr.
  pose proof (add_indicators_row _ _ _ _ Hr)
    as (Hi & Hc & _ & _ & Hrsi & _ & _ & _ & _ & Htrend).
  fold s in Hc, Hrsi, Htrend.
  assert (Hlen : (i < List.length s)%nat)
    by (unfold s; now rewrite length_close_column).
  assert (Hx : nth i s Exact.NaN = x).
  { rewrite Forall_forall in Hs. symmetry. apply Hs, nth_In, Hlen. }
  split; [now rewrite Hc |]. split.
  - rewrite Hrsi. apply nth_all. now apply (rsi_of_flat x).
  - rewrite Htrend, nth_trend, Hx by assumption.
    apply trend_of_same; [now apply Forall_window |].
    intros E. apply (f_equal (@List.length _)) in E.
    rewrite length_window in E by assumption. cbn [List.length] in E. lia.
Qed.

Section WithModel.
Variable llm_analysis : string -> list IndicatorRow -> string.

(** What the scorer is called with for a frame whose last row is
    [latest] and whose 30-day window starts at [oldest]. *)
Definition scored (latest oldest : IndicatorRow) (narrative : string)
  : Scorer.Recommendation :=
  let current_price := to_float (row_close latest) in
  let oldest_close := to_float (row_close oldest) in
  Scorer._generate_recommendation
    (to_float (Engine.rsi latest)) (Engine.trend latest)
    (B64.mul (B64.div (B64.sub current_price oldest_close) oldest_close)
             (B64.of_Z 100))
    (B64.mul (to_float (Engine.volatility latest)) (B64.of_Z 100))
    (Some narrative).

Lemma insights_of_rows ticker stock_data first rows :
  exists ins,
    generate_market_insights llm_analysis ticker stock_data (first :: rows)
    = Analysed ins
    /\ let latest := last (first :: rows) first in
       let oldest := hd first (tail_rows 30 (first :: rows)) in
       let r := scored latest oldest
                  (llm_analysis ticker (first :: rows)) in
       recommendation ins = Scorer.action r
       /\ confidence ins = Scorer.confidence r
       /\ holding_period ins = Scorer.holding_period r
       /\ llm_insights ins = llm_analysis ticker (first :: rows)
       /\ Insights.rsi ins = to_float (Engine.rsi latest)
       /\ Insights.trend ins = Engine.trend latest
       /\ price_change_30d ins
          = B64.mul (B64.div (B64.sub (to_float (row_close latest))
                                      (to_float (row_close oldest)))
                             (to_float (row_close oldest)))
                    (B64.of_Z 100).
Proof.
  eexists. split; [reflexivity |].
  cbv zeta. repeat split; reflexivity.
Qed.

(** X9: the two outcomes of [generate_market_insights].  An empty frame
    gives the insufficient-data result, WAIT with confidence 0.0; a frame
    with rows gives a recommendation of the scorer, BUY, SELL or WAIT with
    confidence 0.5, 0.6 or 0.7, and carries the narrative unchanged. *)
Theorem insufficient_data_only_when_empty
    (ticker : string) (stock_data : list Bar)
    (technical_indicators : list IndicatorRow) :
  match generate_market_insights llm_analysis ticker stock_data
          technical_indicators with
  | InsufficientData error recommendation confidence =>
      technical_indicators = []
      /\ error = "Insufficient data for analysis"
      /\ recommendation = "WAIT"
      /\ confidence = B64.zero
  | Analysed ins =>
      technical_indicators <> []
      /\ In (recommendation ins, confidence ins) ScorerFacts.scorer_pairs
      /\ B64.leb (B64.lit 5 10) (confidence ins) = true
      /\ llm_insights ins = llm_analysis ticker technical_indicators
  end.
Proof.
  destruct technical_indicators as [| first rows].
  - cbn. repeat split.
  - destruct (insights_of_rows ticker stock_data first rows)
      as (ins & -> & Hrec & Hconf & _ & Hllm & _).
    cbv zeta in Hrec, Hconf.
    split; [discriminate |].
    assert (Hin : In (recommendation ins, confidence ins)
                     ScorerFacts.scorer_pairs).
    { rewrite Hrec, Hconf. apply ScorerFacts.scorer_outcomes. }
    split; [exact Hin |]. split; [| exact Hllm].
    revert Hin. generalize (recommendation ins) (confidence ins).
    intros rec conf Hin. unfold ScorerFacts.scorer_pairs in Hin. cbn in Hin.
    repeat (destruct Hin as [Hin | Hin];
            [injection Hin as _ <-; reflexivity |]).
    contradiction.
Qed.

(** X10: a price that never moved.  When every bar of a ticker has the
    same close (a single bar, say), the recommendation is WAIT with
    confidence 0.6 and the holding period "monitor for 1-2 weeks": the RSI
    is missing, the trend neutral and the 30-day change zero or missing. *)
Theorem unchanged_price_waits
    (sorter : Sorter) (qsqrt : Q -> Q) (ticker : string) (x : Exact.num)
    (data : list Bar) :
  data <> [] ->
  Forall (fun b => to_numeric (close b) = x) data ->
  exists ins,
    generate_market_insights llm_analysis ticker data
      (calculate_technical_indicators sorter qsqrt data) = Analysed ins
    /\ recommendation ins = "WAIT"
    /\ confidence ins = B64.lit 6 10
    /\ holding_period ins = "monitor for 1-2 weeks"
    /\ Insights.rsi ins = B64.nan
    /\ Insights.trend ins = "neutral".
Proof.
  intros Hne Hdata.
  pose proof (flat_rows sorter qsqrt x data Hdata) as Hrows.
  destruct data as [| b data]; [congruence |].
  destruct (rows_exist sorter qsqrt b data) as (first & rows & E & _).
  rewrite E in Hrows |- *.
  destruct (insights_of_rows ticker (b :: data) first rows)
    as (ins & -> & Hrec & Hconf & Hhold & _ & Hrsi & Htrend & _).
  cbv zeta in Hrec, Hconf, Hhold, Hrsi, Htrend.
  rewrite Forall_forall in Hrows.
  destruct (Hrows _ (last_in rows first first)) as (Hc1 & Hr1 & Ht1).
  destruct (Hrows _ (oldest_in 30 rows first)) as (Hc2 & _ & _).
  exists ins. split; [reflexivity |].
  unfold scored in Hrec, Hconf, Hhold.
  rewrite Hc1, Hc2, Hr1, Ht1 in Hrec, Hconf, Hhold.
  rewrite Hr1 in Hrsi. rewrite Ht1 in Htrend.
  rewrite ScorerFacts.decision_wait in Hrec, Hconf, Hhold.
  - cbn [Scorer.action Scorer.confidence Scorer.holding_period]
      in Hrec, Hconf, Hhold.
    rewrite ScorerFacts.round_wait in Hconf.
    repeat split; assumption.
  - rewrite ScorerFacts.recommendation_score_sum.
    rewrite unchanged_price_scores_nothing. cbn. lia.
  - rewrite ScorerFacts.recommendation_score_sum.
    rewrite unchanged_price_scores_nothing. cbn. lia.
  - rewrite ScorerFacts.recommendation_score_sum.
    rewrite unchanged_price_scores_nothing. cbn. lia.
Qed.

(** X16: what the 30-day change compares.  For a frame of [n] rows the
    current price is the close of row [n - 1], and the 30-day change is
    measured from the close of row [n - 30], 29 rows earlier, or from the
    first row when the frame has 30 rows or fewer, whatever the time
    between the rows. *)
Theorem thirty_day_change_spans_29_rows
    (ticker : string) (stock_data : list Bar)
    (first : IndicatorRow) (rest : list IndicatorRow) :
  let df := first :: rest in
  let n := List.length df in
  let latest := to_float (row_close (nth (n - 1) df first)) in
  let oldest := to_float (row_close (nth (n - 30) df first)) in
  exists ins,
    generate_market_insights llm_analysis ticker stock_data df = Analysed ins
    /\ current_price ins = latest
    /\ price_change_30d ins
       = B64.mul (B64.div (B64.sub latest oldest) oldest) (B64.of_Z 100)
    /\ ((n <= 30)%nat -> oldest = to_float (row_close first)).
Proof.
  cbv zeta.
  assert (Hlast : last (first :: rest) first
                  = nth (List.length (first :: rest) - 1) (first :: rest)
                        first).
  { cbn [List.length]. rewrite Nat.sub_1_r. cbn [Nat.pred].
    pose proof (last_row rest first first) as H.
    apply (nth_error_nth _ _ first) in H. now symmetry. }
  assert (Hold : hd first (tail_rows 30 (first :: rest))
                 = nth (List.length (first :: rest) - 30) (first :: rest)
                       first).
  { unfold tail_rows. apply hd_skipn. }
  eexists. split; [reflexivity |].
  cbv zeta. cbn [current_price price_change_30d].
  rewrite Hlast, Hold. split; [reflexivity |]. split; [reflexivity |].
  intros Hn. replace (List.length (first :: rest) - 30)%nat with 0%nat
    by lia. reflexivity.
Qed.

End WithModel.

Lemma unchanged_price_waits_witness :
  constant_rows <> []
  /\ Forall (fun b => to_numeric (close b) = Exact.of_Z 100) constant_rows
  /\ exists ins,
      generate_market_insights (fun _ _ => "narrative") "ACME" constant_rows
        (calculate_technical_indicators stable_sorter Exact.floor_sqrt
           constant_rows)
      = Analysed ins
      /\ recommendation ins = "WAIT"
      /\ confidence ins = B64.lit 6 10
      /\ holding_period ins = "monitor for 1-2 weeks"
      /\ Insights.rsi ins = B64.nan
      /\ Insights.trend ins = "neutral".
Proof.
  assert (Hne : constant_rows <> []) by discriminate.
  assert (Hall : Forall (fun b => to_numeric (close b) = Exact.of_Z 100)
                   constant_rows).
  { unfold constant_rows. apply Forall_map, Forall_forall.
    intros t _. reflexivity. }
  split; [exact Hne |]. split; [exact Hall |].
  exact (unchanged_price_waits (fun _ _ => "narrative") stable_sorter
           Exact.floor_sqrt "ACME" (Exact.of_Z 100) constant_rows Hne Hall).
Defined.

(** A single bar whose close is not a number waits as well. *)
Definition lone_bar : list Bar :=
  [ {| timestamp := 7; open := Text "-"; high := Text "-";
       low := Text "-"; close := Text "-"; volume := Text "-" |} ].

Example lone_bar_waits :
  analysis_of (generate_market_insights (fun _ _ => "narrative") "ACME"
                 lone_bar
                 (calculate_technical_indicators stable_sorter
                    Exact.floor_sqrt lone_bar))
  = {| Portfolio.recommendation := Some "WAIT";
       Portfolio.confidence := Some (B64.lit 6 10) |}.
Proof. vm_compute. reflexivity. Qed.

(** The two frames end to end: six closes rising from 100 to 150 are
    rated SELL, five closes falling from 100 to 60 are rated BUY. *)
Example rising_frame_sells :
  analysis_of (generate_market_insights (fun _ _ => "narrative") "ACME"
                 rising_rows
                 (calculate_technical_indicators stable_sorter
                    Exact.floor_sqrt rising_rows))
  = {| Portfolio.recommendation := Some "SELL";
       Portfolio.confidence := Some (B64.lit 7 10) |}.
Proof. vm_compute. reflexivity. Qed.

Example falling_frame_buys :
  analysis_of (generate_market_insights (fun _ _ => "narrative") "ACME"
                 falling_rows
                 (calculate_technical_indicators stable_sorter
                    Exact.floor_sqrt falling_rows))
  = {| Portfolio.recommendation := Some "BUY";
       Portfolio.confidence := Some (B64.lit 7 10) |}.
Proof. vm_compute. reflexivity. Qed.

(** *** The per-ticker analyses inside [analyze_multiple_stocks] *)

Section Pipeline.
Variable llm_analysis : string -> list IndicatorRow -> string.
Variable sorter : Sorter.
Variable qsqrt : Q -> Q.

(** What the loop stores for a ticker with data. *)
Definition analysed (ticker : string) (data : list Bar)
  : Portfolio.Analysis :=
  analysis_of
    (generate_market_insights llm_analysis ticker data
       (calculate_technical_indicators sorter qsqrt data)).

(** One turn of the loop over [stock_data_dict.items()]. *)
Definition loop_step (analyses : list (string * Portfolio.Analysis))
    (item : string * list Bar) : list (string * Portfolio.Analysis) :=
  let '(ticker, data) := item in
  match data with
  | [] => analyses
  | _ :: _ => Portfolio.dict_set ticker (analysed ticker data) analyses
  end.

Lemma analyses_are_the_loop (stock_data_dict : list (string * list Bar)) :
  Portfolio.individual_analyses
    (analyze_portfolio llm_analysis sorter qsqrt stock_data_dict)
  = fold_left loop_step stock_data_dict [].
Proof. reflexivity. Qed.

(** A ticker with data is scored: its frame has rows. *)
Lemma analysed_by_scorer (ticker : string) (b : Bar) (data : list Bar) :
  PortfolioFacts.produced_by_scorer (analysed ticker (b :: data)).
Proof.
  unfold analysed.
  destruct (rows_exist sorter qsqrt b data) as (first & rows & E & _).
  rewrite E.
  destruct (insights_of_rows llm_analysis ticker (b :: data) first rows)
    as (ins & -> & Hrec & Hconf & _).
  cbv zeta in Hrec, Hconf. unfold scored in Hrec, Hconf.
  cbn [analysis_of].
  eexists _, _, _, _, _. cbv zeta.
  cbn [Portfolio.recommendation Portfolio.confidence].
  rewrite Hrec, Hconf. split; reflexivity.
Qed.

Lemma dict_set_Forall (P : string * Portfolio.Analysis -> Prop)
    ticker analysis analyses :
  P (ticker, analysis) -> Forall P analyses ->
  Forall P (Portfolio.dict_set ticker analysis analyses).
Proof.
  intros Hp Hall. induction Hall as [| [k v] t Hkv Ht IH].
  - cbn. constructor; [exact Hp | constructor].
  - cbn [Portfolio.dict_set]. destruct (k =? ticker).
    + constructor; [exact Hp | exact Ht].
    + constructor; assumption.
Qed.

Lemma length_dict_set ticker analysis analyses :
  (List.length (Portfolio.dict_set ticker analysis analyses)
   <= S (List.length analyses))%nat.
Proof.
  induction analyses as [| [k v] t IH]; cbn [Portfolio.dict_set];
    [cbn; lia |].
  destruct (k =? ticker); cbn [List.length]; lia.
Qed.

Lemma loop_invariant (P : string * Portfolio.Analysis -> Prop) :
  (forall ticker b data, P (ticker, analysed ticker (b :: data))) ->
  forall stock_data_dict analyses,
    Forall P analyses -> Forall P (fold_left loop_step stock_data_dict analyses).
Proof.
  intros Hp d. induction d as [| [ticker data] d IH]; intros acc Hacc;
    cbn [fold_left]; [exact Hacc |].
  apply IH. unfold loop_step. destruct data as [| b data]; [exact Hacc |].
  apply dict_set_Forall; [apply Hp | exact Hacc].
Qed.

Lemma loop_length stock_data_dict analyses :
  (List.length (fold_left loop_step stock_data_dict analyses)
   <= List.length analyses + List.length stock_data_dict)%nat.
Proof.
  revert analyses.
  induction stock_data_dict as [| [ticker data] d IH]; intros acc;
    cbn [fold_left List.length]; [lia |].
  specialize (IH (loop_step acc (ticker, data))).
  assert (H : (List.length (loop_step acc (ticker, data))
               <= S (List.length acc))%nat).
  { unfold loop_step. destruct data; [lia | apply length_dict_set]. }
  lia.
Qed.

(** The three counters partition a dict of scored analyses. *)
Lemma counts_partition (analyses : list (string * Portfolio.Analysis)) :
  Forall (fun e => In (snd e) PortfolioFacts.outcomes) analyses ->
  (Portfolio.count "BUY" analyses + Portfolio.count "SELL" analyses
   + Portfolio.count "WAIT" analyses
   = Z.of_nat (List.length analyses))%Z.
Proof.
  unfold Portfolio.count.
  induction 1 as [| [k a] t Ha _ IH]; [reflexivity |].
  cbn [map snd filter List.length] in *.
  assert (Hone :
    (Z.b2z (Portfolio.recommends "BUY" a)
     + Z.b2z (Portfolio.recommends "SELL" a)
     + Z.b2z (Portfolio.recommends "WAIT" a) = 1)%Z).
  { unfold PortfolioFacts.outcomes, ScorerFacts.scorer_pairs in Ha.
    cbn [map fst snd In] in Ha.
    destruct Ha as [<- | [<- | [<- | [<- | [<- | []]]]]]; reflexivity. }
  destruct (Portfolio.recommends "BUY" a),
    (Portfolio.recommends "SELL" a), (Portfolio.recommends "WAIT" a);
    cbn [Z.b2z] in Hone; cbn [List.length]; lia.
Qed.

(** X13: the portfolio analysis is made of scored tickers only.  Whatever
    the input, every entry of [individual_analyses] carries a
    recommendation and a confidence that one call of the scorer returned
    (the insufficient-data result, with its confidence 0.0, never gets
    there, since a ticker with no data is skipped and a ticker with data
    has rows), the BUY, SELL and WAIT counts add up to [total_stocks], and
    [total_stocks] is at most the number of tickers given. *)
Theorem portfolio_counts_add_up (stock_data_dict : list (string * list Bar)) :
  let r := analyze_portfolio llm_analysis sorter qsqrt stock_data_dict in
  let s := Portfolio.portfolio_summary r in
  Forall PortfolioFacts.produced_by_scorer
    (map snd (Portfolio.individual_analyses r))
  /\ Forall (fun a => Portfolio.confidence a <> Some B64.zero)
       (map snd (Portfolio.individual_analyses r))
  /\ (Portfolio.buy_recommendations s + Portfolio.sell_recommendations s
      + Portfolio.wait_recommendations s = Portfolio.total_stocks s)%Z
  /\ (Portfolio.total_stocks s
      <= Z.of_nat (List.length stock_data_dict))%Z.
Proof.
  cbv zeta.
  assert (Hall : Forall (fun e => PortfolioFacts.produced_by_scorer (snd e))
                   (fold_left loop_step stock_data_dict [])).
  { apply loop_invariant; [| constructor].
    intros ticker b data. apply analysed_by_scorer. }
  assert (Hout : Forall (fun e => In (snd e) PortfolioFacts.outcomes)
                   (fold_left loop_step stock_data_dict [])).
  { eapply Forall_impl; [| exact Hall].
    intros e. apply PortfolioFacts.produced_in_outcomes. }
  split; [| split; [| split]].
  - rewrite analyses_are_the_loop. apply Forall_map. exact Hall.
  - rewrite analyses_are_the_loop. apply Forall_map.
    eapply Forall_impl; [| exact Hout].
    intros [k a] Ha. cbn [snd] in *.
    unfold PortfolioFacts.outcomes, ScorerFacts.scorer_pairs in Ha.
    cbn [map fst snd In] in Ha.
    destruct Ha as [<- | [<- | [<- | [<- | [<- | []]]]]]; discriminate.
  - change ((Portfolio.count "BUY" (fold_left loop_step stock_data_dict [])
             + Portfolio.count "SELL" (fold_left loop_step stock_data_dict [])
             + Portfolio.count "WAIT" (fold_left loop_step stock_data_dict [])
             = Z.of_nat (List.length (fold_left loop_step stock_data_dict [])))%Z).
    apply counts_partition. exact Hout.
  - change ((Z.of_nat (List.length (fold_left loop_step stock_data_dict []))
             <= Z.of_nat (List.length stock_data_dict))%Z).
    pose proof (loop_length stock_data_dict []) as H. cbn [List.length] in H.
    lia.
Qed.

(** The entries of the tickers that have data, in the order given. *)
Definition entries (stock_data_dict : list (string * list Bar))
  : list (string * Portfolio.Analysis) :=
  map (fun item => (fst item, analysed (fst item) (snd item)))
      (filter (fun item => match snd item with [] => false | _ => true end)
              stock_data_dict).

Lemma dict_set_fresh ticker analysis analyses :
  ~ In ticker (map fst analyses) ->
  Portfolio.dict_set ticker analysis analyses
  = List.app analyses [(ticker, analysis)].
Proof.
  induction analyses as [| [k v] t IH]; intros Hfresh; [reflexivity |].
  cbn [Portfolio.dict_set]. cbn [map fst In] in Hfresh.
  destruct (String.eqb_spec k ticker) as [-> | Hne].
  - exfalso. apply Hfresh. now left.
  - cbn [List.app]. rewrite IH; [reflexivity |].
    intros Hin. apply Hfresh. now right.
Qed.

Lemma loop_appends stock_data_dict analyses :
  NoDup (List.app (map fst analyses) (map fst stock_data_dict)) ->
  fold_left loop_step stock_data_dict analyses
  = List.app analyses (entries stock_data_dict).
Proof.
  revert analyses.
  induction stock_data_dict as [| [ticker data] d IH]; intros acc Hnd.
  - cbn. now rewrite app_nil_r.
  - cbn [fold_left map fst] in *.
    pose proof (NoDup_remove_1 _ _ _ Hnd) as Hrest.
    pose proof (NoDup_remove_2 _ _ _ Hnd) as Hfresh.
    destruct data as [| b data].
    + cbn [loop_step]. rewrite IH by exact Hrest. reflexivity.
    + cbn [loop_step]. rewrite dict_set_fresh.
      * rewrite IH.
        -- unfold entries. cbn [filter snd map fst].
           rewrite <- app_assoc. reflexivity.
        -- rewrite map_app. cbn [map fst]. rewrite <- app_assoc.
           exact Hnd.
      * intros Hin. apply Hfresh. apply in_or_app. now left.
Qed.

(** X14: tickers without data are skipped, the others keep their order.
    For a dict of tickers (no key twice), [individual_analyses] has one
    entry for each ticker whose data list is not empty, in the order of
    the input, each holding the insights of that ticker's own frame;
    [total_stocks] counts those tickers. *)
Theorem tickers_without_data_are_skipped
    (stock_data_dict : list (string * list Bar)) :
  NoDup (map fst stock_data_dict) ->
  let r := analyze_portfolio llm_analysis sorter qsqrt stock_data_dict in
  Portfolio.individual_analyses r = entries stock_data_dict
  /\ map fst (Portfolio.individual_analyses r)
     = map fst (filter (fun item => match snd item with
                                    | [] => false
                                    | _ => true
                                    end) stock_data_dict)
  /\ Portfolio.total_stocks (Portfolio.portfolio_summary r)
     = Z.of_nat (List.length
                   (filter (fun item => match snd item with
                                        | [] => false
                                        | _ => true
                                        end) stock_data_dict)).
Proof.
  intros Hnd. cbv zeta.
  assert (E : Portfolio.individual_analyses
                (analyze_portfolio llm_analysis sorter qsqrt stock_data_dict)
              = entries stock_data_dict).
  { rewrite analyses_are_the_loop.
    rewrite loop_appends by exact Hnd. reflexivity. }
  split; [exact E |]. split.
  - rewrite E. unfold entries. rewrite map_map. cbn [fst]. reflexivity.
  - change (Portfolio.total_stocks
              (Portfolio.portfolio_summary
                 (analyze_portfolio llm_analysis sorter qsqrt stock_data_dict)))
      with (Z.of_nat (List.length
                        (Portfolio.individual_analyses
                           (analyze_portfolio llm_analysis sorter qsqrt
                              stock_data_dict)))).
    rewrite E. unfold entries. rewrite length_map. reflexivity.
Qed.

End Pipeline.

(** Three tickers, one of them without data. *)
Definition three_tickers : list (string * list Bar) :=
  [ ("RISE", rising_rows); ("NONE", []); ("FALL", falling_rows) ].

Lemma tickers_without_data_are_skipped_witness :
  NoDup (map fst three_tickers)
  /\ let r := analyze_portfolio (fun _ _ => "narrative") stable_sorter
               Exact.floor_sqrt
               three_tickers in
     Portfolio.individual_analyses r
     = entries (fun _ _ => "narrative") stable_sorter Exact.floor_sqrt
         three_tickers
     /\ map fst (Portfolio.individual_analyses r)
        = map fst (filter (fun item => match snd item with
                                       | [] => false
                                       | _ => true
                                       end) three_tickers)
     /\ Portfolio.total_stocks (Portfolio.portfolio_summary r)
        = Z.of_nat (List.length
                      (filter (fun item => match snd item with
                                           | [] => false
                                           | _ => true
                                           end) three_tickers)).
Proof.
  assert (Hnd : NoDup (map fst three_tickers)).
  { repeat constructor; cbn; intuition discriminate. }
  split; [exact Hnd |].
  exact (tickers_without_data_are_skipped (fun _ _ => "narrative")
           stable_sorter Exact.floor_sqrt three_tickers Hnd).
Defined.

Example three_tickers_summary :
  let r := analyze_portfolio (fun _ _ => "narrative") stable_sorter
               Exact.floor_sqrt
             three_tickers in
  map fst (Portfolio.individual_analyses r) = ["RISE"; "FALL"]
  /\ Portfolio.portfolio_summary r
     = {| Portfolio.total_stocks := 2;
          Portfolio.buy_recommendations := 1;
          Portfolio.sell_recommendations := 1;
          Portfolio.wait_recommendations := 0;
          Portfolio.overall_sentiment := "neutral" |}
  /\ Portfolio.action (Portfolio.portfolio_recommendation r) = "MODERATE_BUY".
Proof. vm_compute. repeat split. Qed.

End InsightsFacts.

(* ================================================================== *)
(** * The thresholds of the portfolio recommendation *)

Module PortfolioMore.
Import B64 Portfolio.
Local Open Scope string_scope.
Local Open Scope Z_scope.

(** For [b] BUY ratings among [n] tickers, the three float comparisons of
    [b / n] with 0.6, 0.4 and 0.3 decide as the exact fractions do. *)
Definition ratio_agrees (n b : nat) : bool :=
  let r := div (of_Z (Z.of_nat b)) (of_Z (Z.of_nat n)) in
  Bool.eqb (gtb r (lit 6 10)) (6 * Z.of_nat n <? 10 * Z.of_nat b)
  && Bool.eqb (gtb r (lit 4 10)) (4 * Z.of_nat n <? 10 * Z.of_nat b)
  && Bool.eqb (ltb r (lit 3 10)) (10 * Z.of_nat b <? 3 * Z.of_nat n).

Lemma ratios_agree_upto_100 :
  forallb (fun n => forallb (ratio_agrees (S n)) (seq 0 (S (S n))))
          (seq 0 100) = true.
Proof. vm_compute. reflexivity. Qed.

Lemma ratio_agrees_100 (n b : nat) :
  (1 <= n <= 100)%nat -> (b <= n)%nat -> ratio_agrees n b = true.
Proof.
  intros Hn Hb. pose proof ratios_agree_upto_100 as H.
  rewrite forallb_forall in H.
  destruct n as [| n]; [lia |].
  specialize (H n). rewrite forallb_forall in H.
  apply H; apply in_seq; lia.
Qed.

Lemma buys_at_most_all (analyses : list (string * Analysis)) :
  (List.length (filter (recommends "BUY") (map snd analyses))
   <= List.length analyses)%nat.
Proof.
  rewrite <- (length_map snd analyses). apply filter_length_le.
Qed.

Lemma buy_ratio_of_counts (analyses : list (string * Analysis)) :
  analyses <> [] ->
  buy_ratio analyses
  = div (of_Z (count "BUY" analyses))
        (of_Z (Z.of_nat (List.length analyses))).
Proof. destruct analyses; [congruence | reflexivity]. Qed.

(** X15: the ratio thresholds decide as the exact fractions do.  For a
    portfolio of 1 to 100 tickers, [buy] of them rated BUY, the action is
    DEFENSIVE when [buy/total < 3/10], WAIT when [3/10 <= buy/total <=
    4/10], MODERATE_BUY when [4/10 < buy/total <= 6/10], and above 6/10 it
    is AGGRESSIVE_BUY or MODERATE_BUY as the mean confidence is above 0.7
    or not: the binary64 quotient never lands on the wrong side of 0.3,
    0.4 or 0.6. *)
Theorem ratio_thresholds_are_exact (analyses : list (string * Analysis)) :
  (1 <= List.length analyses <= 100)%nat ->
  let buy := count "BUY" analyses in
  let total := Z.of_nat (List.length analyses) in
  let a := action (_get_portfolio_recommendation analyses) in
  (10 * buy < 3 * total -> a = "DEFENSIVE")
  /\ (3 * total <= 10 * buy <= 4 * total -> a = "WAIT")
  /\ (4 * total < 10 * buy <= 6 * total -> a = "MODERATE_BUY")
  /\ (6 * total < 10 * buy ->
      a = if gtb (avg_confidence analyses) (lit 7 10)
          then "AGGRESSIVE_BUY" else "MODERATE_BUY").
Proof.
  intros Hlen. cbv zeta.
  assert (Hne : analyses <> [])
    by (destruct analyses; [cbn in Hlen; lia | discriminate]).
  pose proof (ratio_agrees_100 (List.length analyses) _ Hlen
                (buys_at_most_all analyses)) as H.
  unfold ratio_agrees in H. cbv zeta in H.
  fold (count "BUY" analyses) in H.
  rewrite <- (buy_ratio_of_counts analyses Hne) in H.
  apply andb_prop in H. destruct H as [H H3].
  apply andb_prop in H. destruct H as [H6 H4].
  apply eqb_prop in H6, H4, H3.
  unfold _get_portfolio_recommendation. rewrite H6, H4, H3.
  set (buy := count "BUY" analyses).
  set (total := Z.of_nat (List.length analyses)).
  destruct (Z.ltb_spec (6 * total) (10 * buy)) as [G6 | G6];
    destruct (Z.ltb_spec (4 * total) (10 * buy)) as [G4 | G4];
    destruct (Z.ltb_spec (10 * buy) (3 * total)) as [G3 | G3];
    try lia; cbn [andb];
    (split; [| split; [| split]]); intros Hyp; try lia; try reflexivity.
  destruct (gtb (avg_confidence analyses) (lit 7 10)); reflexivity.
Qed.

Lemma ratio_thresholds_are_exact_witness :
  (1 <= List.length PortfolioFacts.six_buys <= 100)%nat
  /\ let buy := count "BUY" PortfolioFacts.six_buys in
     let total := Z.of_nat (List.length PortfolioFacts.six_buys) in
     let a := action (_get_portfolio_recommendation
                        PortfolioFacts.six_buys) in
     (10 * buy < 3 * total -> a = "DEFENSIVE")
     /\ (3 * total <= 10 * buy <= 4 * total -> a = "WAIT")
     /\ (4 * total < 10 * buy <= 6 * total -> a = "MODERATE_BUY")
     /\ (6 * total < 10 * buy ->
         a = if gtb (avg_confidence PortfolioFacts.six_buys) (lit 7 10)
             then "AGGRESSIVE_BUY" else "MODERATE_BUY").
Proof.
  assert (Hlen : (1 <= List.length PortfolioFacts.six_buys <= 100)%nat)
    by (cbn; lia).
  split; [exact Hlen |].
  exact (ratio_thresholds_are_exact PortfolioFacts.six_buys Hlen).
Defined.

(** Three BUY ratings among ten tickers are not below 0.3, and two among
    five not above 0.4: both portfolios wait. *)
Example ratios_on_the_thresholds :
  ltb (div (of_Z 3) (of_Z 10)) (lit 3 10) = false
  /\ gtb (div (of_Z 2) (of_Z 5)) (lit 4 10) = false.
Proof. split; reflexivity. Qed.

End PortfolioMore.

(* ================================================================== *)
(** * Further properties of the scorer *)

Module ScorerMore.
Import B64 Scorer ScorerFacts.
Local Open Scope string_scope.
Local Open Scope Z_scope.

Lemma trend_points_range trend : -1 <= trend_points trend <= 1.
Proof.
  unfold trend_points.
  destruct (String.eqb trend "bullish"), (String.eqb trend "bearish"); lia.
Qed.

Lemma price_points_range price_change : -1 <= price_points price_change <= 1.
Proof.
  unfold price_points.
  destruct (gtb price_change (of_Z 5)), (ltb price_change (of_Z (-5))); lia.
Qed.

Lemma rsi_points_range rsi : -2 <= rsi_points rsi <= 2.
Proof.
  unfold rsi_points.
  destruct (ltb rsi (of_Z 30)), (gtb rsi (of_Z 70)),
    (leb (of_Z 30) rsi && leb rsi (of_Z 50)); lia.
Qed.

(** The action as the score decides it. *)
Lemma action_of_score rsi trend price_change volatility llm_insights :
  let score := recommendation_score rsi trend price_change in
  let r := _generate_recommendation rsi trend price_change volatility
             llm_insights in
  (action r = "BUY" <-> 2 <= score)
  /\ (action r = "SELL" <-> score <= -2).
Proof.
  cbv zeta.
  destruct (Z_le_gt_dec 2 (recommendation_score rsi trend price_change))
    as [H | H].
  - rewrite (decision_buy _ _ _ _ _ H). cbn [action].
    split; split; intros H'; try reflexivity; try lia; discriminate.
  - destruct (Z_le_gt_dec (recommendation_score rsi trend price_change) (-2))
      as [H' | H'].
    + rewrite (decision_sell _ _ _ _ _ H'). cbn [action].
      split; split; intros H''; try reflexivity; try lia; discriminate.
    + rewrite decision_wait by lia. cbn [action].
      split; split; intros H''; try lia; discriminate.
Qed.

(** X17: the RSI can veto an action.  The score lies between -4 and 4;
    with an RSI above 70 the action is never BUY, and with an RSI below
    30 it is never SELL, whatever the trend, the price change and the
    volatility; with no RSI signal (an RSI that is NaN or in (50, 70])
    BUY needs both a bullish trend and a fall of more than 5, SELL both a
    bearish trend and a rise of more than 5. *)
Theorem rsi_vetoes_the_action
    (rsi : float) (trend : string) (price_change volatility : float)
    (llm_insights : option string) :
  let score := recommendation_score rsi trend price_change in
  let a := action (_generate_recommendation rsi trend price_change
                     volatility llm_insights) in
  -4 <= score <= 4
  /\ (gtb rsi (of_Z 70) = true -> a <> "BUY")
  /\ (ltb rsi (of_Z 30) = true -> a <> "SELL")
  /\ (rsi_points rsi = 0 ->
      (a = "BUY" <->
       trend = "bullish" /\ ltb price_change (of_Z (-5)) = true
       /\ gtb price_change (of_Z 5) = false)
      /\ (a = "SELL" <->
          trend = "bearish" /\ gtb price_change (of_Z 5) = true)).
Proof.
  cbv zeta.
  pose proof (action_of_score rsi trend price_change volatility llm_insights)
    as [Hbuy Hsell].
  cbv zeta in Hbuy, Hsell.
  pose proof (recommendation_score_sum rsi trend price_change) as Hsum.
  pose proof (trend_points_range trend) as Ht.
  pose proof (price_points_range price_change) as Hp.
  pose proof (rsi_points_range rsi) as Hr.
  split; [lia |]. split; [| split].
  - intros Hrsi Ha. apply Hbuy in Ha.
    assert (rsi_points rsi = -2).
    { unfold rsi_points.
      now rewrite (above_70_not_below_30 rsi Hrsi), Hrsi. }
    lia.
  - intros Hrsi Ha. apply Hsell in Ha.
    assert (rsi_points rsi = 2) by (unfold rsi_points; now rewrite Hrsi).
    lia.
  - intros Hzero. rewrite Hbuy, Hsell, Hsum, Hzero.
    unfold trend_points, price_points.
    destruct (String.eqb_spec trend "bullish") as [Eb | Eb];
      destruct (String.eqb_spec trend "bearish") as [Er | Er];
      destruct (gtb price_change (of_Z 5));
      destruct (ltb price_change (of_Z (-5)));
      intuition (try lia; try congruence; try discriminate).
Qed.

End ScorerMore.

(* ================================================================== *)
(** * The configuration loader: [remove_quotes]

    src/etl_factory/config/config_loader.py (and its copy under
    snowflake_azure_etl_tools). *)

Module Config.
Local Open Scope string_scope.

(** The double quote. *)
Definition quote : ascii := "034"%char.

(** [s.lstrip(c)] and [s.rstrip(c)] for a one-character set. *)
Fixpoint lstrip (c : ascii) (s : string) : string :=
  match s with
  | EmptyString => EmptyString
  | String a t => if Ascii.eqb a c then lstrip c t else s
  end.

Fixpoint rstrip (c : ascii) (s : string) : string :=
  match s with
  | EmptyString => EmptyString
  | String a t =>
      match rstrip c t with
      | EmptyString => if Ascii.eqb a c then EmptyString
                       else String a EmptyString
      | r => String a r
      end
  end.

(** [s.strip(c)]. *)
Definition strip (c : ascii) (s : string) : string := rstrip c (lstrip c s).

Section Values.
(** Dict keys, and the values that are neither dict, list nor str
    (numbers, booleans, None, tuples, ...). *)
Variables key other : Type.

#[warnings="-register-all"] Inductive value : Type :=
| Dict (items : list (key * value))
| PyList (items : list value)
| Str (s : string)
| Other (o : other).

Fixpoint remove_quotes (d : value) : value :=
  match d with
  | Dict items =>
      Dict (map (fun kv => let '(k, v) := kv in (k, remove_quotes v)) items)
  | PyList items => PyList (map remove_quotes items)
  | Str s => Str (strip quote s)
  | Other o => Other o
  end.

(** The strings among the values of [d], left to right (dict keys are
    not values). *)
Fixpoint strings (d : value) : list string :=
  match d with
  | Dict items => flat_map (fun kv => let '(_, v) := kv in strings v) items
  | PyList items => flat_map strings items
  | Str s => [s]
  | Other _ => []
  end.

(** [d] with every string value emptied: the nesting, the keys, the order
    and the values that are not strings. *)
Fixpoint skeleton (d : value) : value :=
  match d with
  | Dict items =>
      Dict (map (fun kv => let '(k, v) := kv in (k, skeleton v)) items)
  | PyList items => PyList (map skeleton items)
  | Str _ => Str EmptyString
  | Other o => Other o
  end.

(** Induction on values, with the hypothesis for every item. *)
Section Induction.
Variable P : value -> Prop.
Hypothesis HDict :
  forall items, Forall (fun kv => P (snd kv)) items -> P (Dict items).
Hypothesis HList : forall items, Forall P items -> P (PyList items).
Hypothesis HStr : forall s, P (Str s).
Hypothesis HOther : forall o, P (Other o).

Fixpoint value_induction (d : value) : P d :=
  match d with
  | Dict items =>
      HDict items
        ((fix go (l : list (key * value))
            : Forall (fun kv => P (snd kv)) l :=
            match l with
            | [] => Forall_nil _
            | kv :: t =>
                Forall_cons kv
                  (match kv as p return P (snd p) with
                   | (_, v) => value_induction v
                   end)
                  (go t)
            end) items)
  | PyList items =>
      HList items
        ((fix go (l : list value) : Forall P l :=
            match l with
            | [] => Forall_nil _
            | v :: t => Forall_cons v (value_induction v) (go t)
            end) items)
  | Str s => HStr s
  | Other o => HOther o
  end.

End Induction.

End Values.

Arguments Dict {key other} items.
Arguments PyList {key other} items.
Arguments Str {key other} s.
Arguments Other {key other} o.
Arguments remove_quotes {key other} d.
Arguments strings {key other} d.
Arguments skeleton {key other} d.

End Config.

(* ================================================================== *)
(** * Properties of [remove_quotes] *)

Module ConfigFacts.
Import Config.
Local Open Scope string_scope.

(** [n] copies of the character [c]. *)
Fixpoint pad (c : ascii) (n : nat) : string :=
  match n with
  | O => EmptyString
  | S n => String c (pad c n)
  end.

Definition starts_with (c : ascii) (s : string) : bool :=
  match s with
  | EmptyString => false
  | String a _ => Ascii.eqb a c
  end.

Fixpoint ends_with (c : ascii) (s : string) : bool :=
  match s with
  | EmptyString => false
  | String a EmptyString => Ascii.eqb a c
  | String _ t => ends_with c t
  end.

(** Neither the first nor the last character of [s] is [c]. *)
Definition bare (c : ascii) (s : string) : Prop :=
  starts_with c s = false /\ ends_with c s = false.

Lemma lstrip_spec c s :
  starts_with c (lstrip c s) = false
  /\ exists n, s = pad c n ++ lstrip c s.
Proof.
  induction s as [| a t [IH1 [n IH2]]]; cbn [lstrip].
  - split; [reflexivity | exists 0%nat; reflexivity].
  - destruct (Ascii.eqb_spec a c) as [-> | Hne].
    + split; [exact IH1 |]. exists (S n). cbn [pad String.append].
      now rewrite <- IH2.
    + split.
      * cbn [starts_with]. now apply Ascii.eqb_neq.
      * exists 0%nat. reflexivity.
Qed.

Lemma rstrip_spec c s :
  ends_with c (rstrip c s) = false
  /\ (starts_with c s = false -> starts_with c (rstrip c s) = false)
  /\ exists m, s = rstrip c s ++ pad c m.
Proof.
  induction s as [| a t (IH1 & _ & m & IH2)]; cbn [rstrip].
  - repeat split. exists 0%nat. reflexivity.
  - destruct (rstrip c t) as [| b r] eqn:E.
    + cbn [String.append] in IH2. subst t.
      destruct (Ascii.eqb_spec a c) as [-> | Hne].
      * split; [reflexivity |]. split; [reflexivity |].
        exists (S m). reflexivity.
      * assert (Hac : Ascii.eqb a c = false) by now apply Ascii.eqb_neq.
        split; [cbn; exact Hac |]. split; [intros _; cbn; exact Hac |].
        exists m. reflexivity.
    + split; [exact IH1 |]. split; [intros H; exact H |].
      exists m. rewrite IH2 at 1. reflexivity.
Qed.

Lemma lstrip_bare c s : starts_with c s = false -> lstrip c s = s.
Proof.
  destruct s as [| a t]; [reflexivity |]. cbn. now intros ->.
Qed.

Lemma rstrip_bare c s : ends_with c s = false -> rstrip c s = s.
Proof.
  induction s as [| a t IH]; [reflexivity |].
  intros H. cbn [rstrip]. destruct t as [| b t'].
  - cbn in H |- *. now rewrite H.
  - rewrite IH by exact H. reflexivity.
Qed.

Lemma strip_bare c s : bare c s -> strip c s = s.
Proof.
  intros [H1 H2]. unfold strip.
  rewrite (lstrip_bare c s H1). now apply rstrip_bare.
Qed.

Lemma strip_is_bare c s : bare c (strip c s).
Proof.
  unfold strip, bare.
  destruct (lstrip_spec c s) as [Hl _].
  destruct (rstrip_spec c (lstrip c s)) as (He & Hs & _).
  split; [now apply Hs | exact He].
Qed.

(** X18: what [strip] removes.  [s.strip(c)] is [s] without a run of [c]
    at its start and a run of [c] at its end, and neither starts nor ends
    with [c]: characters [c] inside the string stay, and a string that is
    bare already is returned as it is. *)
Theorem strip_removes_the_outer_runs (c : ascii) (s : string) :
  (exists n m, s = pad c n ++ strip c s ++ pad c m)
  /\ bare c (strip c s)
  /\ (bare c s -> strip c s = s)
  /\ strip c (strip c s) = strip c s.
Proof.
  split; [| split; [| split]].
  - destruct (lstrip_spec c s) as [_ [n Hn]].
    destruct (rstrip_spec c (lstrip c s)) as (_ & _ & m & Hm).
    exists n, m. unfold strip. now rewrite <- Hm.
  - apply strip_is_bare.
  - apply strip_bare.
  - apply strip_bare, strip_is_bare.
Qed.

Section Values.
Variables key other : Type.

Lemma strings_of_remove_quotes (d : value key other) :
  strings (remove_quotes d) = map (strip quote) (strings d).
Proof.
  induction d as [items IH | items IH | s | o] using value_induction;
    cbn [remove_quotes strings]; try reflexivity.
  - induction IH as [| [k v] t Hv _ IHt]; [reflexivity |].
    cbn [map flat_map snd] in *. rewrite map_app, Hv, IHt. reflexivity.
  - induction IH as [| v t Hv _ IHt]; [reflexivity |].
    cbn [map flat_map] in *. rewrite map_app, Hv, IHt. reflexivity.
Qed.

Lemma skeleton_of_remove_quotes (d : value key other) :
  skeleton (remove_quotes d) = skeleton d.
Proof.
  induction d as [items IH | items IH | s | o] using value_induction;
    cbn [remove_quotes skeleton]; try reflexivity.
  - f_equal. induction IH as [| [k v] t Hv _ IHt]; [reflexivity |].
    cbn [map snd] in *. now rewrite Hv, IHt.
  - f_equal. induction IH as [| v t Hv _ IHt]; [reflexivity |].
    cbn [map] in *. now rewrite Hv, IHt.
Qed.

Lemma remove_quotes_of_bare (d : value key other) :
  Forall (bare quote) (strings d) -> remove_quotes d = d.
Proof.
  induction d as [items IH | items IH | s | o] using value_induction;
    cbn [remove_quotes strings]; intros Hall; try reflexivity.
  - f_equal. induction IH as [| [k v] t Hv _ IHt]; [reflexivity |].
    cbn [map flat_map snd] in *.
    apply Forall_app in Hall. destruct Hall as [H1 H2].
    now rewrite Hv, IHt.
  - f_equal. induction IH as [| v t Hv _ IHt]; [reflexivity |].
    cbn [map flat_map] in *.
    apply Forall_app in Hall. destruct Hall as [H1 H2].
    now rewrite Hv, IHt.
  - f_equal. apply strip_bare. now inversion Hall.
Qed.

(** X19: [remove_quotes] strips the string values and nothing else.  The
    result has the nesting, the dict keys, the order and the non-string
    values of its argument; its string values are those of the argument,
    each stripped of the double quotes at its two ends, so none of them
    starts or ends with a double quote; and applying [remove_quotes]
    again changes nothing. *)
Theorem remove_quotes_strips_values_only (d : value key other) :
  skeleton (remove_quotes d) = skeleton d
  /\ strings (remove_quotes d) = map (strip quote) (strings d)
  /\ Forall (bare quote) (strings (remove_quotes d))
  /\ remove_quotes (remove_quotes d) = remove_quotes d.
Proof.
  assert (Hbare : Forall (bare quote) (strings (remove_quotes d))).
  { rewrite strings_of_remove_quotes. apply Forall_map, Forall_forall.
    intros s _. apply strip_is_bare. }
  split; [apply skeleton_of_remove_quotes |].
  split; [apply strings_of_remove_quotes |].
  split; [exact Hbare |].
  apply remove_quotes_of_bare, Hbare.
Qed.

End Values.

(** A section of a configuration file: quoted values, a quoted key, a
    quote inside a value and a value that is not a string. *)
Example remove_quotes_of_a_section :
  let q := String quote EmptyString in
  remove_quotes
    (Dict [ (q ++ "api_key" ++ q, Str (q ++ "abc" ++ q));
            ("hosts", PyList [Str (q ++ q ++ "a" ++ q ++ "b" ++ q);
                              Str (q ++ q); Other 5%Z]) ])
  = Dict [ (q ++ "api_key" ++ q, Str "abc");
           ("hosts", PyList [Str ("a" ++ q ++ "b"); Str EmptyString;
                             Other 5%Z]) ].
Proof. reflexivity. Qed.

End ConfigFacts.
